(** * Unit-conversion workflow: query parser, conversion engine, number
      formatter and default-unit store

    A shallow embedding of [src/convert.py] and [src/defaults.py].

    - Python [str] values are modelled as [string] (a sequence of 8-bit
      characters; text outside ASCII is not modelled).
    - Python [float] values are IEEE binary64 numbers, modelled by Rocq's
      primitive floats; [int] values are [Z].
    - The interpreter builtins the code calls ([str.strip], [str.split],
      [str.replace], [float()], [str()] on a float, the [f] presentation
      type of [str.format]) are modelled in [PyStr] and [PyFloat] with
      the behaviour of CPython 3.
    - pint's unit registry is an external collaborator; it is a parameter
      ([Registry]) of everything that calls it.
    - Mutable lists live in a heap of list objects, so that two names for
      one list are two occurrences of one location. *)

From Stdlib Require Import ZArith List Bool Ascii String DecimalString.
From Stdlib Require Import PrimFloat SpecFloat FloatOps.
From stdpp Require Import gmap strings list fin_maps.

Local Open Scope string_scope.
Local Open Scope Z_scope.
Local Open Scope list_scope.

(** ** Python string builtins *)

Module PyStr.

(** [str.isspace] on one ASCII character: TAB..CR, FS..US and space. *)
Definition isspace (c : ascii) : bool :=
  let n := N_of_ascii c in
  (((9 <=? n) && (n <=? 13)) || ((28 <=? n) && (n <=? 32)))%N.

Definition isdigit (c : ascii) : bool :=
  let n := N_of_ascii c in ((48 <=? n) && (n <=? 57))%N.

(** [c in s] for a one-character [c]. *)
Fixpoint contains (c : ascii) (s : string) : bool :=
  match s with
  | EmptyString => false
  | String d s' => Ascii.eqb c d || contains c s'
  end.

Fixpoint lstrip (s : string) : string :=
  match s with
  | EmptyString => EmptyString
  | String c s' => if isspace c then lstrip s' else s
  end.

Fixpoint rstrip (s : string) : string :=
  match s with
  | EmptyString => EmptyString
  | String c s' =>
      let r := rstrip s' in
      if isspace c && String.eqb r "" then "" else String c r
  end.

(** [s.strip()] *)
Definition strip (s : string) : string := rstrip (lstrip s).

(** [s[n:]] *)
Fixpoint drop (n : nat) (s : string) : string :=
  match n, s with
  | O, _ => s
  | S n', String _ s' => drop n' s'
  | S _, EmptyString => EmptyString
  end.

(** [''.join(l)] *)
Definition join (l : list string) : string :=
  fold_right String.append "" l.

(** [s.split()]: the maximal runs of non-whitespace characters.
    [cur] holds the characters of the run being read, last one first. *)
Definition flush (cur : list ascii) : list string :=
  match cur with
  | [] => []
  | _ => [string_of_list_ascii (rev cur)]
  end.

Fixpoint split_go (s : string) (cur : list ascii) : list string :=
  match s with
  | EmptyString => flush cur
  | String c s' =>
      if isspace c then flush cur ++ split_go s' []
      else split_go s' (c :: cur)
  end.

Definition split (s : string) : list string := split_go s [].

(** [s.replace(old, new)] for a non-empty [old]: occurrences are found
    left to right and do not overlap.  [skip] counts the characters of
    an occurrence that are still to be passed over. *)
Fixpoint replace_go (old new s : string) (skip : nat) : string :=
  match s with
  | EmptyString => EmptyString
  | String c s' =>
      match skip with
      | S k => replace_go old new s' k
      | O =>
          if String.prefix old s
          then new +:+ replace_go old new s' (String.length old - 1)
          else String c (replace_go old new s' 0)
      end
  end.

(** With an empty [old] Python puts [new] before every character and
    at the end. *)
Fixpoint intersperse (new s : string) : string :=
  match s with
  | EmptyString => new
  | String c s' => new +:+ String c (intersperse new s')
  end.

Definition replace (old new s : string) : string :=
  if String.eqb old "" then intersperse new s else replace_go old new s 0.

(** [s.endswith('0')] and [s[:-1]] *)
Fixpoint endswith0 (s : string) : bool :=
  match s with
  | EmptyString => false
  | String c EmptyString => Ascii.eqb c "0"
  | String _ s' => endswith0 s'
  end.

Fixpoint butlast (s : string) : string :=
  match s with
  | EmptyString => EmptyString
  | String _ EmptyString => EmptyString
  | String c s' => String c (butlast s')
  end.

(** [s.split('.', 1)]: [None] when there is no point, else the text
    before and after the first one. *)
Fixpoint split_point (s : string) : option (string * string) :=
  match s with
  | EmptyString => None
  | String c s' =>
      if Ascii.eqb c "."
      then Some ("", s')
      else match split_point s' with
           | Some (a, b) => Some (String c a, b)
           | None => None
           end
  end.

(** Decimal text of a non-negative integer, as [str(n)] and [{:d}]. *)
Definition of_Z (n : Z) : string :=
  NilZero.string_of_uint (N.to_uint (Z.to_N n)).

Fixpoint zeros (n : nat) : string :=
  match n with O => "" | S n' => String "0" (zeros n') end.

End PyStr.


(** ** Python floats *)

Module PyFloat.

Import PyStr.

(** The binary64 number nearest (ties to even) to [D * 10^q], with the
    sign [neg]; a magnitude past the largest finite number gives an
    infinity.  A negative power of ten is a correctly rounded division
    of two integers. *)
Definition of_decimal (neg : bool) (D q : Z) : spec_float :=
  if D <=? 0 then S754_zero neg
  else if 0 <=? q
  then binary_normalize prec emax (cond_Zopp neg (D * 10 ^ q)) 0 neg
  else
    let '(mz, ez, lz) := SFdiv_core_binary prec emax D 0 (10 ^ (- q)) 0 in
    binary_round_aux prec emax neg mz ez lz.

(** [float(n)] for an [int]: [None] stands for [OverflowError]. *)
Definition of_int (n : Z) : option float :=
  match binary_normalize prec emax n 0 false with
  | S754_infinity _ => None
  | sf => Some (SF2Prim sf)
  end.

Definition digit (c : ascii) : Z := Z.of_N (N_of_ascii c) - 48.

Definition lower (c : ascii) : ascii :=
  let n := N_of_ascii c in
  if ((65 <=? n) && (n <=? 90))%N then ascii_of_N (n + 32) else c.

Fixpoint lower_string (s : string) : string :=
  match s with
  | EmptyString => EmptyString
  | String c s' => String (lower c) (lower_string s')
  end.

(** The rest of a [digitpart ::= digit (["_"] digit)*] once its first
    digit is read: the number read so far, the count of digits, and the
    text that follows. *)
Fixpoint digits_go (s : string) (acc : Z) (n : Z) : Z * Z * string :=
  match s with
  | EmptyString => (acc, n, s)
  | String c s' =>
      if isdigit c then digits_go s' (acc * 10 + digit c) (n + 1)
      else if Ascii.eqb c "_"
      then match s' with
           | String c2 s'' =>
               if isdigit c2
               then digits_go s'' (acc * 10 + digit c2) (n + 1)
               else (acc, n, s)
           | EmptyString => (acc, n, s)
           end
      else (acc, n, s)
  end.

Definition digitpart (s : string) (acc n : Z) : option (Z * Z * string) :=
  match s with
  | String c s' =>
      if isdigit c then Some (digits_go s' (acc * 10 + digit c) (n + 1))
      else None
  | EmptyString => None
  end.

(** [number ::= [digitpart] "." digitpart | digitpart ["."]]: all the
    digits as one integer, the count of digits after the point, and the
    text that follows. *)
Definition number (s : string) : option (Z * Z * string) :=
  match digitpart s 0 0 with
  | Some (D, _, r) =>
      match r with
      | String "."%char r' =>
          match digitpart r' D 0 with
          | Some x => Some x
          | None => Some (D, 0, r')
          end
      | _ => Some (D, 0, r)
      end
  | None =>
      match s with
      | String "."%char r' => digitpart r' 0 0
      | _ => None
      end
  end.

(** [exponent ::= ("e" | "E") [sign] digitpart], up to the end of the
    text; no exponent at all counts as zero. *)
Definition exponent (s : string) : option Z :=
  match s with
  | EmptyString => Some 0
  | String c r =>
      if Ascii.eqb (lower c) "e"
      then
        let '(neg, r') :=
          match r with
          | String "+"%char t => (false, t)
          | String "-"%char t => (true, t)
          | _ => (false, r)
          end in
        match digitpart r' 0 0 with
        | Some (x, _, EmptyString) => Some (cond_Zopp neg x)
        | _ => None
        end
      else None
  end.

Definition split_sign (s : string) : bool * string :=
  match s with
  | String "+"%char r => (false, r)
  | String "-"%char r => (true, r)
  | _ => (false, s)
  end.

(** [float(s)] for a string: [None] stands for the [ValueError] that
    [float] raises on text that is no floating-point literal. *)
Definition of_string (s : string) : option float :=
  let '(neg, body) := split_sign (strip s) in
  let lb := lower_string body in
  if String.eqb lb "inf" || String.eqb lb "infinity"
  then Some (if neg then neg_infinity else infinity)
  else if String.eqb lb "nan" then Some nan
  else
    match number body with
    | Some (D, n, r) =>
        match exponent r with
        | Some x => Some (SF2Prim (of_decimal neg D (x - n)))
        | None => None
        end
    | None => None
    end.

(** A finite positive number [m * 2^e] as a fraction of two integers. *)
Definition fraction (m : positive) (e : Z) : Z * Z :=
  if 0 <=? e then (Zpos m * 2 ^ e, 1) else (Zpos m, 2 ^ (- e)).

Definition scale10 (num den sh : Z) : Z * Z :=
  if 0 <=? sh then (num * 10 ^ sh, den) else (num, den * 10 ^ (- sh)).

(** Nearest integer to [num / den], ties to even. *)
Definition round_half_even (num den : Z) : Z :=
  let q := num / den in
  match 2 * (num mod den) ?= den with
  | Lt => q
  | Gt => q + 1
  | Eq => if Z.even q then q else q + 1
  end.

(** Count of zeros between the point and the first significant digit of
    [num / den < 1]. *)
Fixpoint leading_zeros (fuel : nat) (num den j : Z) : Z :=
  match fuel with
  | O => j
  | S f =>
      if den <=? num * 10 then j
      else leading_zeros f (num * 10) den (j + 1)
  end.

(** The [dp] with [10^(dp-1) <= num/den < 10^dp]. *)
Definition decpt (num den : Z) : Z :=
  let i := num / den in
  if 0 <? i then Z.of_nat (String.length (of_Z i))
  else - leading_zeros (Z.to_nat (Z.log2 den) + 1) num den 0.

Definition roundtrips (x : float) (D q : Z) : bool :=
  PrimFloat.eqb (SF2Prim (of_decimal false D q)) x.

(** The shortest decimal [D * 10^q] that [float] reads back as [x]
    (here [x = num / den > 0]), trying [k], [k+1], ... significant
    digits; of two candidates that both read back as [x] the nearer
    one is taken.  Seventeen digits always suffice. *)
Fixpoint shortest (fuel : nat) (k : Z) (x : float) (num den dp : Z)
  : Z * Z :=
  let '(n', d') := scale10 num den (k - dp) in
  let lo := n' / d' in
  let hi := lo + 1 in
  let q := dp - k in
  let pick :=
    if n' mod d' =? 0 then Some lo
    else
      match roundtrips x lo q, roundtrips x hi q with
      | true, true =>
          Some match 2 * n' ?= (lo + hi) * d' with
               | Lt => lo
               | Gt => hi
               | Eq => if Z.even lo then lo else hi
               end
      | true, false => Some lo
      | false, true => Some hi
      | false, false => None
      end in
  match pick, fuel with
  | Some D, _ => (D, q)
  | None, S f => shortest f (k + 1) x num den dp
  | None, O => (round_half_even n' d', q)
  end.

Fixpoint rstrip0 (s : string) : string :=
  match s with
  | EmptyString => EmptyString
  | String c s' =>
      let r := rstrip0 s' in
      if Ascii.eqb c "0" && String.eqb r "" then "" else String c r
  end.

Fixpoint take (n : nat) (s : string) : string :=
  match n, s with
  | S n', String c s' => String c (take n' s')
  | _, _ => EmptyString
  end.

Definition exp_text (x : Z) : string :=
  let a := of_Z (Z.abs x) in
  (if x <? 0 then "-" else "+") +:+
  (if (String.length a <? 2)%nat then "0" +:+ a else a).

(** Layout of [repr]: digits [ds] (no trailing zero) with the decimal
    point [dp] places to the right of their start. *)
Definition layout (ds : string) (dp : Z) : string :=
  let len := Z.of_nat (String.length ds) in
  if (dp <=? -4) || (16 <? dp)
  then
    match ds with
    | String c EmptyString => String c "e" +:+ exp_text (dp - 1)
    | String c r => String c ("." +:+ r) +:+ "e" +:+ exp_text (dp - 1)
    | EmptyString => EmptyString
    end
  else if dp <=? 0 then "0." +:+ zeros (Z.to_nat (- dp)) +:+ ds
  else if dp <? len
  then take (Z.to_nat dp) ds +:+ "." +:+ drop (Z.to_nat dp) ds
  else ds +:+ zeros (Z.to_nat (dp - len)) +:+ ".0".

Definition sign_text (neg : bool) : string := if neg then "-" else "".

(** [str(x)] (the same text as [repr(x)]). *)
Definition str (x : float) : string :=
  match Prim2SF x with
  | S754_nan => "nan"
  | S754_infinity s => sign_text s +:+ "inf"
  | S754_zero s => sign_text s +:+ "0.0"
  | S754_finite s m e =>
      let '(num, den) := fraction m e in
      let dp := decpt num den in
      let '(D, q) := shortest 17 1 (abs x) num den dp in
      let ds := of_Z D in
      sign_text s +:+
      layout (rstrip0 ds) (Z.of_nat (String.length ds) + q)
  end.

(** A comma before every group of three digits, counted from the right. *)
Fixpoint group (s : string) : string :=
  match s with
  | EmptyString => EmptyString
  | String c s' =>
      let r := String.length s' in
      if (negb (r =? 0) && (r mod 3 =? 0))%nat
      then String c ("," +:+ group s')
      else String c (group s')
  end.

(** The digits of [R], read as a count of units of [10^-p], laid out
    with [p] decimals. *)
Definition fixed (grouping : bool) (p : nat) (R : Z) : string :=
  let ds := of_Z R in
  let ds := zeros (S p - String.length ds) +:+ ds in
  let n := (String.length ds - p)%nat in
  let ip := take n ds in
  (if grouping then group ip else ip) +:+
  (match p with O => "" | _ => "." +:+ drop n ds end).

(** ['{:0,.<p>f}'.format(x)] when [grouping] is set and
    ['{:0.<p>f}'.format(x)] when it is not: no width is given, so the
    zero flag pads nothing. *)
Definition format_f (grouping : bool) (p : nat) (x : float) : string :=
  match Prim2SF x with
  | S754_nan => "nan"
  | S754_infinity s => sign_text s +:+ "inf"
  | S754_zero s => sign_text s +:+ fixed grouping p 0
  | S754_finite s m e =>
      let '(num, den) := fraction m e in
      sign_text s +:+
      fixed grouping p (round_half_even (num * 10 ^ Z.of_nat p) den)
  end.

End PyFloat.

(** ** Exceptions *)

(** The messages of the [ValueError]s that [convert.py] raises itself. *)
Inductive reason : Type :=
| NoQuantity
| StartWithNumber
| NoUnits
| TooManyUnits
| UnknownUnit (u : string)
| UnknownContext (c : string).

Definition message (r : reason) : string :=
  match r with
  | NoQuantity => "No quantity"
  | StartWithNumber => "Start your query with a number"
  | NoUnits => "No units specified"
  | TooManyUnits => "More than 2 units specified"
  | UnknownUnit u => "Unknown unit: " +:+ u
  | UnknownContext c => "Unknown context: " +:+ c
  end.

Inductive exn : Type :=
| ValueError (r : reason)          (* [raise ValueError(message r)] *)
| FloatValueError (text : string)  (* the [ValueError] of [float(text)] *)
| OverflowError                    (* an [int] too large for a [float] *)
| UnboundLocalError
| IndexError
| NoToUnits
| UndefinedUnitError (u : string)  (* pint's, where it is not caught *)
| DimensionalityError (src dst : string).

Definition result (A : Type) : Type := (exn + A)%type.

(** ** The unit registry (pint) *)

(** What the code reads off a [ureg.Quantity(v, symbol)]: the text of
    its [units] and of its [dimensionality]; its magnitude is [v]. *)
Record quantity_info : Type := {
  q_units : string;
  q_dimensionality : string
}.

Record Registry : Type := {
  (** [ureg.Quantity(v, symbol)]; [None] is [UndefinedUnitError], the
      failure the code handles.  What else pint raises, on a symbol it
      cannot read at all, is not modelled. *)
  resolve : string -> option quantity_info;
  (** [ureg.enable_contexts(name)] raises [KeyError] when [false]. *)
  known_context : string -> bool;
  (** [ureg.Quantity(v, src).to(ureg.Quantity(1, dst)).magnitude] with
      the given contexts enabled; [None] is [DimensionalityError]. *)
  to : list string -> float -> string -> string -> option float
}.

(** ** Program state *)

Definition loc : Type := nat.

Record world : Type := {
  heap : list (list string);        (** the list objects, by location *)
  defs : gmap string loc;           (** [Defaults._defs] *)
  stored : option (gmap string loc);(** [settings['default_units']] *)
  writes : nat;                     (** assignments made to [settings] *)
  contexts : list string            (** contexts enabled in [ureg] *)
}.

Definition set_heap (h : list (list string)) (w : world) : world :=
  {| heap := h; defs := defs w; stored := stored w;
     writes := writes w; contexts := contexts w |}.

Definition deref (w : world) (l : loc) : list string :=
  default [] (heap w !! l).

(** The new list object gets the next free location. *)
Definition alloc (v : list string) (w : world) : loc * world :=
  (length (heap w), set_heap (heap w ++ [v]) w).

(** Any in-place change of the list at [l] ([append], [remove],
    [sort], item assignment, ...) leaves it with some content [v]. *)
Definition mutate (l : loc) (v : list string) (w : world) : world :=
  set_heap (<[l := v]> (heap w)) w.

(** ** [defaults.py] *)

Module Defaults.

(** [_load], called by [__init__]: a [defaultdict(list)] updated with
    [settings.get('default_units', {})]; the lists are shared. *)
Definition _load (w : world) : world :=
  {| heap := heap w; defs := default ∅ (stored w); stored := stored w;
     writes := writes w; contexts := contexts w |}.

(** [_save]: [settings['default_units'] = dict(self._defs)] *)
Definition _save (w : world) : world :=
  {| heap := heap w; defs := defs w; stored := Some (defs w);
     writes := S (writes w); contexts := contexts w |}.

(** [self._defs[dimensionality]] on the [defaultdict]: a missing key is
    given a new empty list. *)
Definition getitem (dimensionality : string) (w : world) : loc * world :=
  match defs w !! dimensionality with
  | Some l => (l, w)
  | None =>
      let '(l, w1) := alloc [] w in
      (l, {| heap := heap w1; defs := <[dimensionality := l]> (defs w1);
             stored := stored w1; writes := writes w1;
             contexts := contexts w1 |})
  end.

(** [return self._defs[dimensionality][:]] *)
Definition defaults (dimensionality : string) (w : world) : loc * world :=
  let '(l, w1) := getitem dimensionality w in
  alloc (deref w1 l) w1.

(** [return unit in self._defs[dimensionality]] *)
Definition is_default (dimensionality unit : string) (w : world)
  : bool * world :=
  let '(l, w1) := getitem dimensionality w in
  (bool_decide (unit ∈ deref w1 l), w1).

Definition add (dimensionality unit : string) (w : world) : world :=
  let '(b, w1) := is_default dimensionality unit w in
  if negb b then
    let '(l, w2) := getitem dimensionality w1 in
    _save (mutate l (deref w2 l ++ [unit]) w2)
  else w1.

(** [list.remove(x)] takes out the first [x]. *)
Fixpoint list_remove (x : string) (l : list string) : list string :=
  match l with
  | [] => []
  | y :: l' => if String.eqb x y then l' else y :: list_remove x l'
  end.

Definition remove (dimensionality unit : string) (w : world) : world :=
  let '(b, w1) := is_default dimensionality unit w in
  if b then
    let '(l, w2) := getitem dimensionality w1 in
    _save (mutate l (list_remove unit (deref w2 l)) w2)
  else w1.

End Defaults.

(** ** [convert.py]: [Formatter] *)

Module Formatter.

Import PyStr.

(** [decimal_places] is a count of digits: an [int] that is not
    negative. *)
Record t : Type := {
  decimal_places : nat;
  decimal_separator : string;
  thousands_separator : string;
  dynamic_decimals : bool
}.

(** The search loop of [_decimal_places]:
    [while p < m: e = 10 ** p; i = n * e; if n * e >= 10: break; p += 1].
    The state is [p] and [i]; [i] is unbound until the body has run. *)
Fixpoint search (fuel : nat) (n : float) (m p : Z) (i : option float)
  : result (Z * option float) :=
  match fuel with
  | O => inr (p, i)
  | S fuel' =>
      if p <? m then
        match PyFloat.of_int (10 ^ p) with
        | None => inl OverflowError
        | Some e =>
            let i := PrimFloat.mul n e in
            if PrimFloat.leb 10%float i then inr (p, Some i)
            else search fuel' n m (p + 1) (Some i)
        end
      else inr (p, i)
  end.

(** [while s.endswith('0'): s = s[:-1]; p -= 1] *)
Fixpoint trim (fuel : nat) (s : string) (p : Z) : Z :=
  match fuel with
  | O => p
  | S fuel' => if endswith0 s then trim fuel' (butlast s) (p - 1) else p
  end.

Definition _decimal_places (self : t) (n : float) : result Z :=
  let dp := Z.of_nat (decimal_places self) in
  if negb (dynamic_decimals self) || PrimFloat.eqb n 0%float
  then inr dp
  else
    let m := Z.max dp 10 + 1 in
    match search (Z.to_nat (m - dp)) n m dp None with
    | inl e => inl e
    | inr (_, None) => inl UnboundLocalError
    | inr (p, Some i) =>
        match split_point (PyFloat.str i) with
        | None => inr p
        | Some (_, s) => inr (Z.max (trim (String.length s) s p) dp)
        end
    end.

(** The two replacement rounds shared by both entry points. *)
Definition swap_separators (self : t) (num : string) : string :=
  let num := replace "," "||comma||" num in
  let num := replace "." "||point||" num in
  let num := replace "||comma||" (thousands_separator self) num in
  replace "||point||" (decimal_separator self) num.

(** [if unit: num = u'{} {}'.format(num, unit)] *)
Definition with_unit (num : string) (unit : option string) : string :=
  match unit with
  | None => num
  | Some u => if String.eqb u "" then num else num +:+ " " +:+ u
  end.

Definition formatted (self : t) (n : float) (unit : option string)
  : result string :=
  let sep := negb (String.eqb (thousands_separator self) "") in
  match _decimal_places self n with
  | inl e => inl e
  | inr p =>
      let num := PyFloat.format_f sep (Z.to_nat p) n in
      inr (with_unit (swap_separators self num) unit)
  end.

Definition formatted_no_thousands (self : t) (n : float)
  (unit : option string) : result string :=
  match _decimal_places self n with
  | inl e => inl e
  | inr p =>
      let num := PyFloat.format_f false (Z.to_nat p) n in
      let num := replace "." "||point||" num in
      let num := replace "||point||" (decimal_separator self) num in
      inr (with_unit num unit)
  end.

End Formatter.

(** ** [convert.py]: [Input] and [Conversion] *)

Module Input.

(** [context] is [None] for the empty list that [parse_context] gives
    back when the query starts with no lowercase letter. *)
Record t : Type := {
  number : float;
  dimensionality : string;
  from_unit : string;
  to_unit : option string;
  context : option string
}.

End Input.

Module Conversion.

Record t : Type := {
  from_number : float;
  from_unit : string;
  to_number : float;
  to_unit : string;
  dimensionality : string
}.

End Conversion.

(** ** [convert.py]: [Converter] *)

Module Converter.

Import PyStr.

(** [self.defaults] is the one [Defaults] object of the [world]. *)
Record t : Type := {
  decimal_separator : string;
  thousands_separator : string
}.

(** [Converter(defaults)] with the separators left at their defaults. *)
Definition default : t :=
  {| decimal_separator := "."; thousands_separator := "," |}.

(** The body of the [for u in units] loop of [convert]. *)
Fixpoint convert_each (R : Registry) (i : Input.t) (ctxs : list string)
  (units : list string) : result (list Conversion.t) :=
  match units with
  | [] => inr []
  | u :: units' =>
      match resolve R u with
      | None => inl (ValueError (UnknownUnit u))
      | Some _ =>
          match to R ctxs (Input.number i) (Input.from_unit i) u with
          | None => inl (DimensionalityError (Input.from_unit i) u)
          | Some conv =>
              match convert_each R i ctxs units' with
              | inl e => inl e
              | inr results =>
                  inr ({| Conversion.from_number := Input.number i;
                          Conversion.from_unit := Input.from_unit i;
                          Conversion.to_number := conv;
                          Conversion.to_unit := u;
                          Conversion.dimensionality :=
                            Input.dimensionality i |} :: results)
              end
          end
      end
  end.

(** The destination units of [convert]: the explicit unit, or the saved
    defaults without [from_unit]. *)
Definition destinations (i : Input.t) (w : world) : list string * world :=
  match Input.to_unit i with
  | Some u => ([u], w)
  | None =>
      let '(l, w1) := Defaults.defaults (Input.dimensionality i) w in
      (filter (fun u => u <> Input.from_unit i) (deref w1 l), w1)
  end.

Definition convert (R : Registry) (i : Input.t) (w : world)
  : result (list Conversion.t) * world :=
  let '(units, w1) := destinations i w in
  match units with
  | [] => (inl NoToUnits, w1)
  | _ =>
      match resolve R (Input.from_unit i) with
      | None => (inl (UndefinedUnitError (Input.from_unit i)), w1)
      | Some _ => (convert_each R i (contexts w1) units, w1)
      end
  end.

(** The leading run of lowercase letters of [parse_context]. *)
Fixpoint leading_letters (query : string) : string :=
  match query with
  | EmptyString => EmptyString
  | String c query' =>
      if contains c "abcdefghijklmnopqrstuvwxyz"
      then String c (leading_letters query')
      else EmptyString
  end.

Definition enable_context (ctx : string) (w : world) : world :=
  {| heap := heap w; defs := defs w; stored := stored w;
     writes := writes w; contexts := ctx :: contexts w |}.

Definition parse_context (R : Registry) (query : string) (w : world)
  : result (option string * string) * world :=
  let ctx := leading_letters query in
  if String.eqb ctx "" then (inr (None, query), w)
  else if known_context R ctx
  then (inr (Some ctx, strip (drop (String.length ctx) query)),
        enable_context ctx w)
  else (inl (ValueError (UnknownContext ctx)), w).

(** [qtychars] of [parse_quantity] *)
Definition qtychars (self : t) : string :=
  "+-1234567890" +:+ thousands_separator self +:+ decimal_separator self.

(** The [for c in query] loop of [parse_quantity]: the entries appended
    to [qty], in order. *)
Fixpoint scan (self : t) (query : string) : list string :=
  match query with
  | EmptyString => []
  | String c query' =>
      if contains c (qtychars self) then
        (if Ascii.eqb c "+" then [""] else []) ++
        (if String.eqb (String c "") (thousands_separator self)
         then [""]
         else if String.eqb (String c "") (decimal_separator self)
         then ["."]
         else [String c ""]) ++
        scan self query'
      else []
  end.

(** The quantity is [None] when nothing was appended to [qty]. *)
Definition parse_quantity (self : t) (query : string)
  : result (option float * string) :=
  let qty := scan self query in
  if (length qty =? 0)%nat then inr (None, "")
  else
    let tail := strip (drop (length qty) query) in
    match PyFloat.of_string (join qty) with
    | None => inl (FloatValueError (join qty))
    | Some x => inr (Some x, tail)
    end.

(** [parse_units]: the source quantity, as its magnitude [qty] and what
    the registry says of its unit, and, when a second token is there,
    the destination's. *)
Definition parse_units (R : Registry) (query : string) (qty : float)
  : result ((float * quantity_info) * option quantity_info) :=
  let units := map strip (split query) in
  match units with
  | [] => inl IndexError
  | from_unit :: rest =>
      let to_unit := match rest with [] => None | u :: _ => Some u end in
      if (2 <? length units)%nat then inl (ValueError TooManyUnits)
      else
        match resolve R from_unit with
        | None => inl (ValueError (UnknownUnit from_unit))
        | Some fq =>
            match to_unit with
            | None => inr ((qty, fq), None)
            | Some u =>
                if String.eqb u "" then inr ((qty, fq), None)
                else match resolve R u with
                     | None => inl (ValueError (UnknownUnit u))
                     | Some tq => inr ((qty, fq), Some tq)
                     end
            end
        end
  end.

(** [parse].  The truth that [if to_unit:] takes of the destination
    quantity is that of its magnitude, 1; pint refuses to take it of a
    quantity in an offset unit (degC), and such units are not
    modelled. *)
Definition parse (R : Registry) (self : t) (query : string) (w : world)
  : result Input.t * world :=
  match parse_context R query w with
  | (inl e, w1) => (inl e, w1)
  | (inr (ctx, query), w1) =>
      match parse_quantity self query with
      | inl e => (inl e, w1)
      | inr (None, _) =>
          match ctx with
          | Some _ => (inl (ValueError NoQuantity), w1)
          | None => (inl (ValueError StartWithNumber), w1)
          end
      | inr (Some qty, tail) =>
          if (String.length tail =? 0)%nat
          then (inl (ValueError NoUnits), w1)
          else
            match parse_units R tail qty with
            | inl e => (inl e, w1)
            | inr ((magnitude, fq), tq) =>
                (inr {| Input.number := magnitude;
                        Input.dimensionality := q_dimensionality fq;
                        Input.from_unit := q_units fq;
                        Input.to_unit := option_map q_units tq;
                        Input.context := ctx |}, w1)
            end
      end
  end.

End Converter.

(** ** Vocabulary of the statements *)

(** The saved default units of a dimensionality: the content of its list
    in [_defs], empty when the key is missing. *)
Definition saved (d : string) (w : world) : list string :=
  match defs w !! d with
  | Some l => deref w l
  | None => []
  end.

(** The mapping held by the settings store, with the lists read out. *)
Definition persisted (w : world) : option (gmap string (list string)) :=
  fmap (M := option) (fmap (M := gmap string) (deref w)) (stored w).

(** The sequence a call such as [defaults(d)] hands to its caller. *)
Definition returned (r : loc * world) : list string :=
  deref (snd r) (fst r).

(** Every list that [_defs] or the settings store refers to exists. *)
Definition wf (w : world) : Prop :=
  map_Forall (fun _ l => l < length (heap w))%nat (defs w) /\
  from_option (map_Forall (fun _ l => l < length (heap w))%nat)
              True (stored w).

(** The destination set: the explicit unit alone, or the saved defaults
    of the dimensionality, in their order, without [from_unit]. *)
Definition destination_set (i : Input.t) (w : world) : list string :=
  match Input.to_unit i with
  | Some u => [u]
  | None =>
      filter (fun u => u <> Input.from_unit i)
             (saved (Input.dimensionality i) w)
  end.

(** The units the settings store holds for a dimensionality. *)
Definition stored_saved (d : string) (w : world) : list string :=
  match stored w with
  | Some m => match m !! d with Some l => deref w l | None => [] end
  | None => []
  end.

(** What is in memory is what is persisted. *)
Definition synced (w : world) : Prop :=
  forall d, stored_saved d w = saved d w.

(** No dimensionality has a duplicate among its saved units. *)
Definition duplicate_free (w : world) : Prop :=
  forall d, NoDup (saved d w).

(** Two dimensionalities never share one list object. *)
Definition separate (w : world) : Prop :=
  forall d d' l, defs w !! d = Some l -> defs w !! d' = Some l -> d = d'.

(** The query once its context is taken off, as [parse_context] hands
    it on. *)
Definition after_context (query : string) : string :=
  let ctx := Converter.leading_letters query in
  if String.eqb ctx "" then query
  else PyStr.strip (PyStr.drop (String.length ctx) query).

(** The unit tail: what [parse_quantity] leaves of that text. *)
Definition unit_tail (self : Converter.t) (query : string) : string :=
  let rest := after_context query in
  PyStr.strip (PyStr.drop (length (Converter.scan self rest)) rest).

(** The leading run of quantity characters of a query. *)
Fixpoint matched (self : Converter.t) (query : string) : string :=
  match query with
  | EmptyString => EmptyString
  | String c query' =>
      if PyStr.contains c (Converter.qtychars self)
      then String c (matched self query')
      else EmptyString
  end.

(** How many times a character occurs in a text. *)
Fixpoint occurrences (c : ascii) (s : string) : nat :=
  match s with
  | EmptyString => O
  | String d s' => (if Ascii.eqb c d then 1 else 0) + occurrences c s'
  end.

(** ** A small registry and store for the examples *)

Module Example.

Definition info (units dim : string) : option quantity_info :=
  Some {| q_units := units; q_dimensionality := dim |}.

Definition lookup_unit (symbol : string) : option quantity_info :=
  if String.eqb symbol "km" || String.eqb symbol "kilometer"
  then info "kilometer" "[length]"
  else if String.eqb symbol "mi" || String.eqb symbol "mile"
  then info "mile" "[length]"
  else if String.eqb symbol "m" || String.eqb symbol "meter"
  then info "meter" "[length]"
  else if String.eqb symbol "s" || String.eqb symbol "second"
  then info "second" "[time]"
  else None.

(** Size of a unit in the base unit of its dimensionality. *)
#[local] Set Warnings "-inexact-float".
Definition factor (units : string) : float :=
  if String.eqb units "kilometer" then 1000%float
  else if String.eqb units "mile" then 1609.344%float
  else 1%float.

Definition convert_unit (_ : list string) (v : float) (src dst : string)
  : option float :=
  match lookup_unit src, lookup_unit dst with
  | Some a, Some b =>
      if String.eqb (q_dimensionality a) (q_dimensionality b)
      then Some (PrimFloat.div (PrimFloat.mul v (factor (q_units a)))
                               (factor (q_units b)))
      else None
  | _, _ => None
  end.

Definition registry : Registry :=
  {| resolve := lookup_unit;
     known_context := fun c => String.eqb c "sp";
     to := convert_unit |}.

(** A fresh installation: nothing saved. *)
Definition empty_world : world :=
  {| heap := []; defs := ∅; stored := None; writes := 0; contexts := [] |}.

(** Miles and meters saved for lengths, and loaded. *)
Definition length_world : world :=
  {| heap := [["mile"; "meter"]];
     defs := {["[length]" := 0%nat]};
     stored := Some {["[length]" := 0%nat]};
     writes := 0;
     contexts := [] |}.

(** Miles and furlongs saved for lengths; the registry does not know
    furlongs (any more). *)
Definition stale_world : world :=
  {| heap := [["mile"; "furlong"]];
     defs := {["[length]" := 0%nat]};
     stored := Some {["[length]" := 0%nat]};
     writes := 0;
     contexts := [] |}.

Definition km_to (to_unit : option string) : Input.t :=
  {| Input.number := 5%float;
     Input.dimensionality := "[length]";
     Input.from_unit := "kilometer";
     Input.to_unit := to_unit;
     Input.context := None |}.

End Example.

(** * Properties *)

(** ** The heap of list objects *)

Section Heap.

Implicit Types (w : world) (l : loc) (v : list string).

Lemma deref_alloc_new v w :
  returned (alloc v w) = v.
Proof.
  unfold returned, alloc, deref; simpl.
  rewrite lookup_app_r by lia.
  by rewrite Nat.sub_diag.
Qed.

Lemma deref_alloc_old v w l :
  (l < length (heap w))%nat -> deref (snd (alloc v w)) l = deref w l.
Proof.
  intros Hl. unfold alloc, deref; simpl.
  by rewrite lookup_app_l.
Qed.

Lemma deref_mutate_eq l v w :
  (l < length (heap w))%nat -> deref (mutate l v w) l = v.
Proof.
  intros Hl. unfold mutate, deref; simpl.
  by rewrite list_lookup_insert_eq.
Qed.

Lemma deref_mutate_ne l l' v w :
  l <> l' -> deref (mutate l v w) l' = deref w l'.
Proof.
  intros Hne. unfold mutate, deref; simpl.
  by rewrite list_lookup_insert_ne.
Qed.

Lemma length_heap_mutate l v w :
  length (heap (mutate l v w)) = length (heap w).
Proof. unfold mutate; simpl. apply length_insert. Qed.

End Heap.

(** ** [Defaults] *)

Section DefaultsFacts.

Import Defaults.

Implicit Types (w : world) (d u : string) (l : loc).

(** What [self._defs[d]] gives and what it leaves behind. *)
Lemma getitem_spec d w l w1 :
  getitem d w = (l, w1) ->
  deref w1 l = saved d w /\
  defs w1 !! d = Some l /\
  stored w1 = stored w /\ writes w1 = writes w /\
  contexts w1 = contexts w /\
  (length (heap w) <= length (heap w1))%nat /\
  (forall l', (l' < length (heap w))%nat -> deref w1 l' = deref w l').
Proof.
  unfold getitem, saved.
  destruct (defs w !! d) as [l0|] eqn:Hd.
  - intros [= <- <-]. rewrite Hd. repeat split; auto.
  - intros [= <- <-]; simpl.
    rewrite lookup_insert_eq.
    repeat split; auto.
    + pose proof (deref_alloc_new [] w) as H. apply H.
    + rewrite length_app; lia.
    + intros l' Hl'. apply (deref_alloc_old [] w l' Hl').
Qed.

Lemma getitem_hit d w l :
  defs w !! d = Some l -> getitem d w = (l, w).
Proof. intros H. unfold getitem. by rewrite H. Qed.

Lemma getitem_wf d w :
  wf w ->
  wf (snd (getitem d w)) /\ (fst (getitem d w) < length (heap (snd (getitem d w))))%nat.
Proof.
  intros [Hd Hs]. unfold getitem.
  destruct (defs w !! d) as [l0|] eqn:Hl; simpl.
  - split; [by split|]. by apply (Hd d l0).
  - rewrite length_app; simpl. split; [split; simpl|lia].
    + apply map_Forall_insert_2; [rewrite length_app; simpl; lia|].
      eapply map_Forall_impl; [exact Hd|].
      intros ? ? ?; rewrite length_app; simpl in *; lia.
    + destruct (stored w) as [m|]; simpl in *; [|done].
      eapply map_Forall_impl; [exact Hs|].
      intros ? ? ?; rewrite length_app; simpl in *; lia.
Qed.

(** Other keys keep their lists. *)
Lemma getitem_saved d d' w :
  wf w -> saved d' (snd (getitem d w)) = saved d' w.
Proof.
  intros [Hd _]. unfold getitem, saved.
  destruct (defs w !! d) as [l0|] eqn:Hl; simpl; [done|].
  destruct (decide (d = d')) as [<-|Hne].
  - rewrite lookup_insert_eq, Hl.
    apply (deref_alloc_new [] w).
  - rewrite lookup_insert_ne by done.
    destruct (defs w !! d') as [l'|] eqn:Hl'; [|done].
    apply (deref_alloc_old [] w). by apply (Hd d' l').
Qed.

(** [defaults(d)] hands out the saved units of [d]. *)
Lemma defaults_returned d w :
  returned (defaults d w) = saved d w.
Proof.
  unfold defaults.
  destruct (getitem d w) as [l w1] eqn:Hg.
  rewrite deref_alloc_new.
  by apply getitem_spec in Hg as (-> & _).
Qed.

End DefaultsFacts.

(** ** [Converter.convert] *)

Section ConvertFacts.

Import Converter.

Variable R : Registry.

Implicit Types (i : Input.t) (w : world) (c : Conversion.t).

Lemma destinations_set i w :
  fst (destinations i w) = destination_set i w.
Proof.
  unfold destinations, destination_set.
  destruct (Input.to_unit i); [done|].
  pose proof (defaults_returned (Input.dimensionality i) w) as H.
  unfold returned in H.
  destruct (Defaults.defaults _ w) as [l w1]; simpl in *.
  by rewrite H.
Qed.

(** The world after [convert] does not depend on the outcome. *)
Lemma convert_world i w :
  snd (convert R i w) = snd (destinations i w).
Proof.
  unfold convert.
  destruct (destinations i w) as [units w1]; simpl.
  destruct units; [done|].
  by destruct (resolve R (Input.from_unit i)).
Qed.

Lemma convert_each_ok i ctxs units cs :
  convert_each R i ctxs units = inr cs ->
  Forall (fun c =>
            Conversion.dimensionality c = Input.dimensionality i /\
            Conversion.from_number c = Input.number i /\
            Conversion.from_unit c = Input.from_unit i) cs /\
  map Conversion.to_unit cs = units.
Proof.
  revert cs. induction units as [|u units IH]; intros cs; simpl.
  - intros [= <-]. split; [constructor | reflexivity].
  - destruct (resolve R u); [|discriminate].
    destruct (to R ctxs _ _ u); [|discriminate].
    destruct (convert_each R i ctxs units) as [e|cs']; [discriminate|].
    intros [= <-].
    destruct (IH cs' eq_refl) as [Hall Hmap].
    split; [constructor; [by simpl | exact Hall] | simpl; by rewrite Hmap].
Qed.

(** What a successful [convert] went through. *)
Lemma convert_ok i w cs :
  fst (convert R i w) = inr cs ->
  convert_each R i (contexts (snd (destinations i w)))
               (destination_set i w) = inr cs.
Proof.
  rewrite <- destinations_set. unfold convert.
  destruct (destinations i w) as [units w1]; simpl.
  destruct units as [|u units]; [discriminate|].
  by destruct (resolve R (Input.from_unit i)).
Qed.

End ConvertFacts.

(** C2, as amended: for an [Input] that names its destination unit [u],
    [convert] returns exactly one [Conversion], to [u] (be it [from_unit]
    itself), if the registry resolves [from_unit] and [u] and converts
    between them; otherwise it returns nothing and raises: the
    registry's [UndefinedUnitError] when [from_unit] is not resolved,
    "Unknown unit" for [u] when [u] is not resolved, and the registry's
    [DimensionalityError] when there is no conversion.  So whenever it
    returns at all, it returns exactly one [Conversion], to [u]. *)
Theorem convert_explicit_unit (R : Registry) (i : Input.t) (w : world)
  (u : string) :
  Input.to_unit i = Some u ->
  (forall m,
     is_Some (resolve R (Input.from_unit i)) ->
     is_Some (resolve R u) ->
     to R (contexts w) (Input.number i) (Input.from_unit i) u = Some m ->
     Converter.convert R i w =
       (inr [ {| Conversion.from_number := Input.number i;
                 Conversion.from_unit := Input.from_unit i;
                 Conversion.to_number := m;
                 Conversion.to_unit := u;
                 Conversion.dimensionality := Input.dimensionality i |} ],
        w)) /\
  (forall cs,
     fst (Converter.convert R i w) = inr cs ->
     exists c, cs = [c] /\ Conversion.to_unit c = u) /\
  (resolve R (Input.from_unit i) = None ->
   Converter.convert R i w
     = (inl (UndefinedUnitError (Input.from_unit i)), w)) /\
  (is_Some (resolve R (Input.from_unit i)) ->
   resolve R u = None ->
   Converter.convert R i w = (inl (ValueError (UnknownUnit u)), w)) /\
  (is_Some (resolve R (Input.from_unit i)) ->
   is_Some (resolve R u) ->
   to R (contexts w) (Input.number i) (Input.from_unit i) u = None ->
   Converter.convert R i w
     = (inl (DimensionalityError (Input.from_unit i) u), w)).
Proof.
  intros Hu.
  assert (Converter.convert R i w =
          match resolve R (Input.from_unit i) with
          | None => (inl (UndefinedUnitError (Input.from_unit i)), w)
          | Some _ =>
              (Converter.convert_each R i (contexts w) [u], w)
          end) as Hc.
  { unfold Converter.convert, Converter.destinations. by rewrite Hu. }
  split; [|split; [|split; [|split]]].
  - intros m [fq Hf] [tq Ht] Hm.
    rewrite Hc, Hf. simpl. by rewrite Ht, Hm.
  - intros cs Hcs. apply convert_ok in Hcs.
    apply convert_each_ok in Hcs as [_ Hmap].
    unfold destination_set in Hmap. rewrite Hu in Hmap.
    destruct cs as [|c [|c' cs]]; try discriminate.
    exists c. split; [done|]. by injection Hmap.
  - intros Hf. by rewrite Hc, Hf.
  - intros [fq Hf] Ht. rewrite Hc, Hf. simpl. by rewrite Ht.
  - intros [fq Hf] [tq Ht] Hm. rewrite Hc, Hf. simpl. by rewrite Ht, Hm.
Qed.

(** C2, witness: five kilometers to kilometers are converted, to
    seconds and to an unknown unit they are refused. *)
Lemma convert_explicit_unit_witness :
  Converter.convert Example.registry (Example.km_to (Some "kilometer"))
                    Example.length_world =
    (inr [ {| Conversion.from_number := 5%float;
              Conversion.from_unit := "kilometer";
              Conversion.to_number := 5%float;
              Conversion.to_unit := "kilometer";
              Conversion.dimensionality := "[length]" |} ],
     Example.length_world) /\
  Converter.convert Example.registry (Example.km_to (Some "second"))
                    Example.length_world =
    (inl (DimensionalityError "kilometer" "second"), Example.length_world)
  /\
  Converter.convert Example.registry (Example.km_to (Some "furlong"))
                    Example.length_world =
    (inl (ValueError (UnknownUnit "furlong")), Example.length_world).
Proof.
  split; [|split].
  - refine (proj1 (convert_explicit_unit Example.registry
                     (Example.km_to (Some "kilometer"))
                     Example.length_world "kilometer" eq_refl)
                  5%float _ _ _).
    + eexists; reflexivity.
    + eexists; reflexivity.
    + reflexivity.
  - destruct (convert_explicit_unit Example.registry
                (Example.km_to (Some "second")) Example.length_world
                "second" eq_refl) as (_ & _ & _ & _ & H).
    apply H; [eexists; reflexivity | eexists; reflexivity | reflexivity].
  - destruct (convert_explicit_unit Example.registry
                (Example.km_to (Some "furlong")) Example.length_world
                "furlong" eq_refl) as (_ & _ & _ & H & _).
    apply H; [eexists; reflexivity | reflexivity].
Defined.

(** C2, as stated, fails: the query ["5 km s"] is parsed into an
    [Input] that names a destination of another dimensionality, and
    [convert] raises instead of returning a [Conversion]. *)
Lemma convert_explicit_unit_can_raise :
  fst (Converter.parse Example.registry Converter.default "5 km s"
                       Example.empty_world)
    = inr (Example.km_to (Some "second")) /\
  Input.to_unit (Example.km_to (Some "second")) = Some "second" /\
  fst (Converter.convert Example.registry (Example.km_to (Some "second"))
                         Example.empty_world) =
    inl (DimensionalityError "kilometer" "second") /\
  ~ (exists c,
       fst (Converter.convert Example.registry
              (Example.km_to (Some "second")) Example.empty_world) = inr [c]
       /\ Conversion.to_unit c = "second").
Proof.
  split; [by vm_compute|].
  split; [reflexivity|]. split; [reflexivity|].
  intros (c & Hc & _). discriminate Hc.
Qed.

(** C3: with no destination named, when the saved defaults of the
    dimensionality without [from_unit] are an empty sequence, as when
    nothing is saved for it, [convert] raises [NoToUnits]. *)
Theorem convert_no_destination (R : Registry) (i : Input.t) (w : world) :
  Input.to_unit i = None ->
  filter (fun u => u <> Input.from_unit i)
         (saved (Input.dimensionality i) w) = [] ->
  fst (Converter.convert R i w) = inl NoToUnits.
Proof.
  intros Hto Hnil.
  pose proof (destinations_set i w) as Hd.
  unfold destination_set in Hd. rewrite Hto, Hnil in Hd.
  unfold Converter.convert.
  destruct (Converter.destinations i w) as [units w1]; simpl in *.
  by subst units.
Qed.

(** C3, witness: nothing is saved at all. *)
Lemma convert_no_destination_witness :
  fst (Converter.convert Example.registry (Example.km_to None)
                         Example.empty_world) = inl NoToUnits.
Proof.
  apply (convert_no_destination Example.registry (Example.km_to None)
           Example.empty_world); reflexivity.
Defined.

(** Nothing saved for a dimensionality is a case of C3's premise. *)
Lemma nothing_saved (i : Input.t) (w : world) :
  defs w !! Input.dimensionality i = None ->
  filter (fun u => u <> Input.from_unit i)
         (saved (Input.dimensionality i) w) = [].
Proof. intros H. unfold saved. by rewrite H. Qed.

(** C8: every [Conversion] of a successful [convert] carries the
    [Input]'s dimensionality, number and [from_unit], and the [to_unit]s
    are the destination set in its order. *)
Theorem convert_results (R : Registry) (i : Input.t) (w : world)
  (cs : list Conversion.t) :
  fst (Converter.convert R i w) = inr cs ->
  Forall (fun c =>
            Conversion.dimensionality c = Input.dimensionality i /\
            Conversion.from_number c = Input.number i /\
            Conversion.from_unit c = Input.from_unit i) cs /\
  map Conversion.to_unit cs = destination_set i w.
Proof.
  intros Hcs. apply convert_ok in Hcs. by apply convert_each_ok in Hcs.
Qed.

(** C8, witness: kilometers to the two saved defaults. *)
Lemma convert_results_witness :
  exists cs,
    fst (Converter.convert Example.registry (Example.km_to None)
                           Example.length_world) = inr cs /\
    map Conversion.to_unit cs = ["mile"; "meter"] /\
    Forall (fun c =>
              Conversion.dimensionality c = "[length]" /\
              Conversion.from_number c = 5%float /\
              Conversion.from_unit c = "kilometer") cs.
Proof.
  eexists. split; [reflexivity|].
  destruct (convert_results Example.registry (Example.km_to None)
              Example.length_world _ eq_refl) as [H1 H2].
  split; [exact H2 | exact H1].
Defined.

(** ** [Defaults.add] and [Defaults.defaults] *)

Section DefaultsClaims.

Import Defaults.

Implicit Types (w : world) (d u : string) (l : loc) (v : list string).

Lemma is_default_saved d u w :
  fst (is_default d u w) = bool_decide (u ∈ saved d w).
Proof.
  unfold is_default.
  destruct (getitem d w) as [l w1] eqn:Hg; simpl.
  by apply getitem_spec in Hg as (-> & _).
Qed.

Lemma is_default_world d u w :
  snd (is_default d u w) = snd (getitem d w).
Proof. unfold is_default. by destruct (getitem d w). Qed.

(** A list that nothing refers to can change without being noticed. *)
Lemma saved_mutate_fresh d l v w :
  map_Forall (fun _ l' => l' <> l) (defs w) ->
  saved d (mutate l v w) = saved d w.
Proof.
  intros Hfresh. unfold saved; simpl.
  destruct (defs w !! d) as [l'|] eqn:Hd; [|done].
  apply deref_mutate_ne. intros ->. by apply (Hfresh d l').
Qed.

Lemma persisted_mutate_fresh l v w :
  from_option (map_Forall (fun _ l' => l' <> l)) True (stored w) ->
  persisted (mutate l v w) = persisted w.
Proof.
  unfold persisted; simpl.
  destruct (stored w) as [m|]; simpl; [|done].
  intros Hfresh. f_equal.
  apply map_fmap_ext. intros k l' Hk.
  apply deref_mutate_ne. intros ->. by apply (Hfresh k l').
Qed.

(** [add] when the unit is already saved: nothing happens. *)
Lemma add_present d u w :
  u ∈ saved d w -> add d u w = w.
Proof.
  intros Hin. unfold add, is_default.
  assert (exists l, defs w !! d = Some l) as [l Hl].
  { unfold saved in Hin. destruct (defs w !! d); [eauto|].
    by apply not_elem_of_nil in Hin. }
  rewrite (getitem_hit d w l Hl).
  assert (deref w l = saved d w) as -> by (unfold saved; by rewrite Hl).
  by rewrite bool_decide_eq_true_2.
Qed.

(** [add] when the unit is not saved yet: the world it leaves. *)
Lemma add_absent d u w :
  u ∉ saved d w ->
  add d u w =
    _save (mutate (fst (getitem d w)) (saved d w ++ [u])
                  (snd (getitem d w))).
Proof.
  intros Hnin. unfold add, is_default.
  destruct (getitem d w) as [l w1] eqn:Hg.
  pose proof (getitem_spec d w l w1 Hg) as (Hs & Hl & _).
  rewrite Hs, bool_decide_eq_false_2 by done. simpl.
  by rewrite (getitem_hit d w1 l Hl), Hs.
Qed.

Lemma saved_add_absent d u w :
  wf w -> u ∉ saved d w -> saved d (add d u w) = saved d w ++ [u].
Proof.
  intros Hwf Hnin. rewrite add_absent by done.
  destruct (getitem_wf d w Hwf) as [_ Hlt].
  destruct (getitem d w) as [l w1] eqn:Hg; simpl in *.
  pose proof (getitem_spec d w l w1 Hg) as (_ & Hl & _).
  unfold saved at 1; simpl. rewrite Hl.
  change (deref (mutate l (saved d w ++ [u]) w1) l = saved d w ++ [u]).
  by apply deref_mutate_eq.
Qed.


Lemma defaults_alloc d w :
  defaults d w = alloc (saved d w) (snd (getitem d w)).
Proof.
  unfold defaults.
  destruct (getitem d w) as [l w1] eqn:Hg; simpl.
  by apply getitem_spec in Hg as (-> & _).
Qed.

Lemma wf_alloc v w : wf w -> wf (snd (alloc v w)).
Proof.
  intros [Hd Hs]. split; simpl.
  - eapply map_Forall_impl; [exact Hd|].
    intros ? ? ?; rewrite length_app; simpl in *; lia.
  - destruct (stored w) as [m|]; simpl in *; [|done].
    eapply map_Forall_impl; [exact Hs|].
    intros ? ? ?; rewrite length_app; simpl in *; lia.
Qed.

Lemma wf_mutate l v w : wf w -> wf (mutate l v w).
Proof.
  intros [Hd Hs]. split; simpl; rewrite length_insert; [done|].
  by destruct (stored w).
Qed.

Lemma wf_save w : wf w -> wf (_save w).
Proof. intros [Hd Hs]. by split. Qed.

(** The invariant is kept by every operation of [Defaults]. *)
Lemma wf_add d u w : wf w -> wf (add d u w).
Proof.
  intros Hwf.
  destruct (decide (u ∈ saved d w)) as [Hin|Hnin].
  - by rewrite add_present.
  - rewrite add_absent by done.
    apply wf_save, wf_mutate. by apply getitem_wf.
Qed.

Lemma wf_defaults d w : wf w -> wf (snd (defaults d w)).
Proof.
  intros Hwf. unfold defaults.
  pose proof (getitem_wf d w Hwf) as [Hwf1 _].
  destruct (getitem d w) as [l w1]; simpl in *.
  by apply wf_alloc.
Qed.

Lemma wf_load w : wf w -> wf (_load w).
Proof.
  intros [_ Hs]. split; simpl; [|done].
  destruct (stored w); simpl in *; [done|].
  apply map_Forall_empty.
Qed.

End DefaultsClaims.

(** C4: [add] of a unit that is already saved for the dimensionality
    leaves everything as it is, the settings store included; [add] of a
    unit that is not saved yet puts it at the end of the list and writes
    the mapping to the settings store at once; so [add] never makes a
    duplicate, and a second [add] of the same unit changes nothing. *)
Theorem add_idempotent (d u : string) (w : world) :
  wf w ->
  (u ∈ saved d w -> Defaults.add d u w = w) /\
  (u ∉ saved d w ->
     saved d (Defaults.add d u w) = saved d w ++ [u] /\
     writes (Defaults.add d u w) = S (writes w) /\
     exists m, persisted (Defaults.add d u w) = Some m /\
               m !! d = Some (saved d w ++ [u])) /\
  (NoDup (saved d w) -> NoDup (saved d (Defaults.add d u w))) /\
  Defaults.add d u (Defaults.add d u w) = Defaults.add d u w.
Proof.
  intros Hwf.
  assert (u ∉ saved d w ->
          saved d (Defaults.add d u w) = saved d w ++ [u]) as Hnew
    by (by apply saved_add_absent).
  split; [apply add_present|]. split; [|split].
  - intros Hnin. split; [by apply Hnew|].
    pose proof (Hnew Hnin) as Hsaved.
    rewrite add_absent in * by done.
    destruct (Defaults.getitem d w) as [l w1] eqn:Hg; simpl in *.
    pose proof (getitem_spec d w l w1 Hg) as (_ & Hl & _ & Hw & _).
    split; [by rewrite Hw|].
    eexists. split; [reflexivity|].
    rewrite lookup_fmap.
    change (defs (mutate l (saved d w ++ [u]) w1)) with (defs w1).
    rewrite Hl. simpl. f_equal.
    unfold saved in Hsaved at 1. simpl in Hsaved. by rewrite Hl in Hsaved.
  - intros Hnd. destruct (decide (u ∈ saved d w)) as [Hin|Hnin].
    + by rewrite add_present.
    + rewrite Hnew by done. apply NoDup_app. repeat split; [done| |].
      * intros x Hx Hxu. apply list_elem_of_singleton in Hxu. by subst.
      * apply NoDup_singleton.
  - apply add_present.
    destruct (decide (u ∈ saved d w)) as [Hin|Hnin].
    + by rewrite add_present.
    + rewrite Hnew by done. apply elem_of_app. right. by left.
Qed.

Lemma length_world_wf : wf Example.length_world.
Proof.
  split; simpl; apply map_Forall_singleton; simpl; lia.
Qed.

Lemma empty_world_wf : wf Example.empty_world.
Proof. split; simpl; [apply map_Forall_empty | exact I]. Qed.

(** C4, witness: miles are saved for lengths already, kilometers are
    not. *)
Lemma add_idempotent_witness :
  Defaults.add "[length]" "mile" Example.length_world
    = Example.length_world /\
  saved "[length]" (Defaults.add "[length]" "km" Example.length_world)
    = ["mile"; "meter"; "km"] /\
  writes (Defaults.add "[length]" "km" Example.length_world) = 1%nat.
Proof.
  split.
  - destruct (add_idempotent "[length]" "mile" Example.length_world
                length_world_wf) as (H & _).
    apply H. apply (bool_decide_unpack _). by vm_compute.
  - destruct (add_idempotent "[length]" "km" Example.length_world
                length_world_wf) as (_ & H & _).
    destruct H as (H1 & H2 & _).
    + apply (bool_decide_unpack _). by vm_compute.
    + split; [exact H1 | exact H2].
Defined.

(** C9: [defaults(d)] hands out a new list holding the saved units of
    [d] (none when [d] was never added), and whatever is then done to
    that list, every later [defaults] and [is_default] answers as
    before and the persisted mapping is as before. *)
Theorem defaults_returns_copy (d : string) (w : world) (v : list string) :
  wf w ->
  let r := Defaults.defaults d w in
  let w' := mutate (fst r) v (snd r) in
  returned r = saved d w /\
  (defs w !! d = None -> returned r = []) /\
  deref w' (fst r) = v /\
  (forall d', returned (Defaults.defaults d' w')
              = returned (Defaults.defaults d' (snd r))) /\
  (forall d' u, fst (Defaults.is_default d' u w')
                = fst (Defaults.is_default d' u (snd r))) /\
  persisted w' = persisted (snd r).
Proof.
  intros Hwf r w'.
  assert (returned r = saved d w) as Hr by apply defaults_returned.
  split; [exact Hr|]. split.
  { intros Hd. rewrite Hr. unfold saved. by rewrite Hd. }
  subst r w'. rewrite (defaults_alloc d w).
  destruct (getitem_wf d w Hwf) as [[Hd1 Hs1] _].
  set (w1 := snd (Defaults.getitem d w)) in *.
  unfold alloc; simpl.
  set (c := length (heap w1)).
  set (w2 := set_heap (heap w1 ++ [saved d w]) w1).
  assert (forall d', saved d' (mutate c v w2) = saved d' w2) as Hsaved.
  { intros d'. apply saved_mutate_fresh. simpl.
    eapply map_Forall_impl; [exact Hd1|].
    intros ? ? ?; subst c; simpl in *; lia. }
  split; [|split; [|split]].
  - apply deref_mutate_eq. subst c w2; simpl.
    rewrite length_app; simpl; lia.
  - intros d'. by rewrite !defaults_returned.
  - intros d' u. by rewrite !is_default_saved, Hsaved.
  - apply persisted_mutate_fresh. simpl.
    destruct (stored w1) as [m|]; simpl in *; [|done].
    eapply map_Forall_impl; [exact Hs1|].
    intros ? ? ?; subst c; simpl in *; lia.
Qed.

(** C9, witness: the caller empties the list it was given. *)
Lemma defaults_returns_copy_witness :
  let r := Defaults.defaults "[length]" Example.length_world in
  let w' := mutate (fst r) [] (snd r) in
  returned r = ["mile"; "meter"] /\
  deref w' (fst r) = [] /\
  returned (Defaults.defaults "[length]" w') = ["mile"; "meter"] /\
  fst (Defaults.is_default "[length]" "mile" w') = true /\
  persisted w' = persisted Example.length_world.
Proof.
  intros r w'.
  destruct (defaults_returns_copy "[length]" Example.length_world []
              length_world_wf) as (H1 & _ & H3 & H4 & H5 & H6).
  split; [exact H1|]. split; [exact H3|].
  split; [exact (H4 "[length]")|].
  split; [exact (H5 "[length]" "mile")|].
  exact H6.
Defined.

(** ** [Formatter] *)

Section FormatterFacts.

Import Formatter PyStr.

Implicit Types (self : t) (n : float) (p m : Z).

(** The search loop is done within [m - p] rounds: more fuel changes
    nothing. *)
Lemma search_fuel (k : nat) n m p i :
  (Z.to_nat (m - p) <= k)%nat ->
  search k n m p i = search (Z.to_nat (m - p)) n m p i.
Proof.
  revert p i. induction k as [|k IH]; intros p i Hk.
  - by replace (Z.to_nat (m - p)) with 0%nat by lia.
  - destruct (Z.ltb_spec p m) as [Hlt|Hge].
    + replace (Z.to_nat (m - p)) with (S (Z.to_nat (m - (p + 1)))) by lia.
      simpl. destruct (Z.ltb_spec p m); [|lia].
      destruct (PyFloat.of_int (10 ^ p)); [|done].
      destruct (PrimFloat.leb 10 (PrimFloat.mul n f)); [done|].
      apply IH. lia.
    + replace (Z.to_nat (m - p)) with 0%nat by lia. simpl.
      by destruct (Z.ltb_spec p m); [lia|].
Qed.

(** The loop body runs at least once, so [i] is bound after it. *)
Lemma search_binds (k : nat) n m p i q :
  p < m -> (0 < k)%nat -> search k n m p i <> inr (q, None).
Proof.
  revert p i. induction k as [|k IH]; intros p i Hlt Hk; [lia|].
  simpl. destruct (Z.ltb_spec p m); [|lia].
  destruct (PyFloat.of_int (10 ^ p)); [|done].
  destruct (PrimFloat.leb 10 (PrimFloat.mul n f)); [done|].
  destruct k as [|k]; [done|].
  destruct (Z.ltb_spec (p + 1) m) as [Hlt'|Hge].
  - apply IH; lia.
  - simpl. by destruct (Z.ltb_spec (p + 1) m); [lia|].
Qed.

(** The trimming loop is done within [length s] rounds. *)
Lemma butlast_length (s : string) :
  String.length (butlast s) = pred (String.length s).
Proof.
  induction s as [|c s IH]; [done|].
  destruct s as [|c' s]; [done|].
  change (butlast (String c (String c' s)))
    with (String c (butlast (String c' s))).
  simpl String.length in *. by rewrite IH.
Qed.

Lemma endswith0_nonempty (s : string) :
  endswith0 s = true -> (0 < String.length s)%nat.
Proof. destruct s; [discriminate | simpl; lia]. Qed.

Lemma trim_fuel (k : nat) (s : string) p :
  (String.length s <= k)%nat -> trim k s p = trim (String.length s) s p.
Proof.
  revert s p. induction k as [|k IH]; intros s p Hk.
  - by replace (String.length s) with 0%nat by lia.
  - simpl. destruct (endswith0 s) eqn:He.
    + pose proof (endswith0_nonempty s He) as Hpos.
      pose proof (butlast_length s) as Hb.
      destruct (String.length s) as [|len] eqn:Hlen; [lia|].
      simpl. rewrite He. simpl in Hb.
      rewrite (IH (butlast s)) by lia.
      by rewrite Hb.
    + destruct (String.length s); simpl; [done|]. by rewrite He.
Qed.

(** The search only moves upward. *)
Lemma search_lower (k : nat) n m p i q j :
  search k n m p i = inr (q, j) -> p <= q.
Proof.
  revert p i. induction k as [|k IH]; intros p i; simpl.
  - intros [= <- _]. lia.
  - destruct (Z.ltb_spec p m).
    + destruct (PyFloat.of_int (10 ^ p)); [|done].
      destruct (PrimFloat.leb 10 (PrimFloat.mul n f)).
      * intros [= <- _]. lia.
      * intros Hs. apply IH in Hs. lia.
    + intros [= <- _]. lia.
Qed.

(** The result is never below the configured count. *)
Lemma _decimal_places_floor self n p :
  _decimal_places self n = inr p -> Z.of_nat (decimal_places self) <= p.
Proof.
  unfold _decimal_places.
  destruct (negb (dynamic_decimals self) || PrimFloat.eqb n 0).
  - intros [= <-]. lia.
  - destruct (search _ n _ _ None) as [e|[q [i|]]] eqn:Hs; try done.
    apply search_lower in Hs.
    destruct (split_point (PyFloat.str i)) as [[a s]|];
      intros [= <-]; lia.
Qed.

(** The only exception of the search is that of [float(10 ** p)]. *)
Lemma search_raises (k : nat) n m p i e :
  search k n m p i = inl e -> e = OverflowError.
Proof.
  revert p i. induction k as [|k IH]; intros p i; simpl; [done|].
  destruct (p <? m); [|done].
  destruct (PyFloat.of_int (10 ^ p)); [|by intros [= <-]].
  destruct (PrimFloat.leb 10 (PrimFloat.mul n f)); [done|].
  apply IH.
Qed.

(** [i] is always bound when it is read. *)
Lemma _decimal_places_bound self n :
  _decimal_places self n <> inl UnboundLocalError.
Proof.
  unfold _decimal_places.
  destruct (negb (dynamic_decimals self) || PrimFloat.eqb n 0); [done|].
  set (dp := Z.of_nat (decimal_places self)).
  destruct (search _ n _ dp None) as [e|[q [i|]]] eqn:Hs.
  - apply search_raises in Hs. by subst e.
  - by destruct (split_point (PyFloat.str i)) as [[a s]|].
  - exfalso. apply search_binds in Hs; [done|lia|lia].
Qed.

Lemma zeros_snoc (p : nat) : zeros p +:+ "0" = String "0" (zeros p).
Proof.
  induction p as [|p IH]; [done|].
  change (String "0" (zeros p +:+ "0") = String "0" (zeros (S p))).
  by rewrite IH.
Qed.

Lemma zeros_length (p : nat) : String.length (zeros p) = p.
Proof. induction p as [|p IH]; [done|]. simpl. by rewrite IH. Qed.

(** Zero with [p] decimals: a zero, and [p] zeros after the point. *)
Lemma format_f_zero (grouping : bool) (p : nat) :
  PyFloat.format_f grouping p 0 =
    "0" +:+ match p with O => "" | S _ => "." +:+ zeros p end.
Proof.
  unfold PyFloat.format_f.
  replace (Prim2SF 0) with (S754_zero false) by reflexivity.
  unfold PyFloat.fixed, PyFloat.sign_text.
  replace (of_Z 0) with "0" by reflexivity.
  replace (S p - String.length "0")%nat with p by (simpl; lia).
  rewrite zeros_snoc. simpl String.length. rewrite zeros_length.
  replace (S p - p)%nat with 1%nat by lia.
  simpl. destruct p as [|p]; simpl; by destruct grouping.
Qed.

End FormatterFacts.

(** C5: with two decimal places, [","] for the decimal point and ["."]
    between the thousands, 1234.5 is formatted as ["1.234,50"], be
    [dynamic_decimals] on or off: the machine text ["1,234.50"] has its
    two separators exchanged through the placeholders. *)
Theorem formatted_swapped_separators (dynamic : bool) :
  PyFloat.format_f true 2 1234.5 = "1,234.50" /\
  Formatter.formatted
    {| Formatter.decimal_places := 2;
       Formatter.decimal_separator := ",";
       Formatter.thousands_separator := ".";
       Formatter.dynamic_decimals := dynamic |}
    1234.5 None = inr "1.234,50".
Proof. split; [|destruct dynamic]; by vm_compute. Qed.

(** C6: zero is formatted with exactly [decimal_places] decimals,
    whatever the configuration and be [dynamic_decimals] on or off. *)
Theorem zero_uses_decimal_places (self : Formatter.t)
  (unit : option string) :
  Formatter._decimal_places self 0
    = inr (Z.of_nat (Formatter.decimal_places self)) /\
  Formatter.formatted self 0 unit
    = inr (Formatter.with_unit
             (Formatter.swap_separators self
                ("0" +:+ match Formatter.decimal_places self with
                         | O => ""
                         | S _ =>
                             "." +:+
                             PyStr.zeros (Formatter.decimal_places self)
                         end))
             unit).
Proof.
  assert (Formatter._decimal_places self 0
          = inr (Z.of_nat (Formatter.decimal_places self))) as Hp.
  { unfold Formatter._decimal_places.
    replace (PrimFloat.eqb 0 0) with true by reflexivity.
    by rewrite orb_true_r. }
  split; [exact Hp|].
  unfold Formatter.formatted. rewrite Hp, Nat2Z.id.
  by rewrite format_f_zero.
Qed.

(** ** [Converter.parse] *)

Section ParseFacts.

Import Converter PyStr.

Implicit Types (self : t) (query : string) (w : world).

(** One round of the scanning loop. *)
Lemma scan_step self c query :
  scan self (String c query) =
    if contains c (qtychars self) then
      (if Ascii.eqb c "+" then [""] else []) ++
      (if String.eqb (String c "") (thousands_separator self)
       then [""]
       else if String.eqb (String c "") (decimal_separator self)
       then ["."]
       else [String c ""]) ++
      scan self query
    else [].
Proof. reflexivity. Qed.

(** Nothing is appended to [qty] exactly when the query is empty or
    starts with a character that is no quantity character. *)
Lemma scan_nil self query :
  scan self query = [] <->
  match query with
  | EmptyString => True
  | String c _ => contains c (qtychars self) = false
  end.
Proof.
  destruct query as [|c query]; [done|].
  rewrite scan_step.
  destruct (contains c (qtychars self)); [|by split].
  split; [|discriminate]. intros H.
  apply app_eq_nil in H as [_ H]. apply app_eq_nil in H as [H _].
  by repeat case_match.
Qed.

(** Every matched character appends at least one entry, a ["+"] two. *)
Lemma scan_cons self c query :
  contains c (qtychars self) = true ->
  (0 < length (scan self (String c query)))%nat.
Proof.
  intros Hc. destruct (scan self (String c query)) eqn:Hs; [|simpl; lia].
  apply scan_nil in Hs. congruence.
Qed.

(** [parse] once the context is taken off and nothing was scanned. *)
Lemma parse_no_quantity (R : Registry) self query w ctx rest w1 :
  parse_context R query w = (inr (ctx, rest), w1) ->
  scan self rest = [] ->
  parse R self query w =
    (inl (ValueError match ctx with
                     | Some _ => NoQuantity
                     | None => StartWithNumber
                     end), w1).
Proof.
  intros Hctx Hscan. unfold parse, parse_quantity.
  rewrite Hctx, Hscan. simpl. by destruct ctx.
Qed.

(** [parse] once the context is taken off and the scanned text is no
    number. *)
Lemma parse_bad_number (R : Registry) self query w ctx rest w1 :
  parse_context R query w = (inr (ctx, rest), w1) ->
  scan self rest <> [] ->
  PyFloat.of_string (join (scan self rest)) = None ->
  parse R self query w =
    (inl (FloatValueError (join (scan self rest))), w1).
Proof.
  intros Hctx Hscan Hbad. unfold parse, parse_quantity.
  rewrite Hctx, Hbad.
  destruct (scan self rest); [done|]. reflexivity.
Qed.

(** A query that starts with no lowercase letter has no context. *)
Lemma parse_context_none (R : Registry) query w :
  leading_letters query = "" ->
  parse_context R query w = (inr (None, query), w).
Proof. intros H. unfold parse_context. by rewrite H. Qed.

End ParseFacts.

(** C1: ["+5 km mi"] is parsed into the number 5.0 from the canonical
    symbol of ["km"] to that of ["mi"]; the ["+"] is scanned with the
    digits and leaves the magnitude alone, and the units start at
    ["km"]. *)
Theorem parse_plus_five_km_mi (R : Registry) (w : world)
  (kq mq : quantity_info) :
  resolve R "km" = Some kq ->
  resolve R "mi" = Some mq ->
  Converter.parse_quantity Converter.default "+5 km mi"
    = inr (Some 5%float, "km mi") /\
  Converter.parse R Converter.default "+5 km mi" w =
    (inr {| Input.number := 5%float;
            Input.dimensionality := q_dimensionality kq;
            Input.from_unit := q_units kq;
            Input.to_unit := Some (q_units mq);
            Input.context := None |}, w).
Proof.
  intros Hkm Hmi.
  assert (Converter.parse_quantity Converter.default "+5 km mi"
          = inr (Some 5%float, "km mi")) as Hq by (by vm_compute).
  split; [exact Hq|].
  unfold Converter.parse.
  rewrite parse_context_none by reflexivity.
  rewrite Hq.
  replace (String.length "km mi" =? 0)%nat with false by reflexivity.
  unfold Converter.parse_units.
  replace (map PyStr.strip (PyStr.split "km mi")) with ["km"; "mi"]
    by reflexivity.
  simpl. by rewrite Hkm, Hmi.
Qed.

(** C1, witness: the small registry knows both symbols. *)
Lemma parse_plus_five_km_mi_witness :
  Converter.parse Example.registry Converter.default "+5 km mi"
                  Example.empty_world =
    (inr {| Input.number := 5%float;
            Input.dimensionality := "[length]";
            Input.from_unit := "kilometer";
            Input.to_unit := Some "mile";
            Input.context := None |}, Example.empty_world).
Proof.
  exact (proj2 (parse_plus_five_km_mi Example.registry Example.empty_world
                  {| q_units := "kilometer";
                     q_dimensionality := "[length]" |}
                  {| q_units := "mile"; q_dimensionality := "[length]" |}
                  eq_refl eq_refl)).
Defined.

(** C7: ["10"] has a quantity and no units, and fails with the
    no-units error; a query in which the scan finds no quantity
    character fails with "Start your query with a number" when it had
    no context and with "No quantity" when it had one; the two messages
    differ. *)
Theorem parse_without_number_or_units :
  (forall (R : Registry) (w : world),
     Converter.parse R Converter.default "10" w
       = (inl (ValueError NoUnits), w)) /\
  (forall (R : Registry) (self : Converter.t) (query rest : string)
          (ctx : option string) (w w1 : world),
     Converter.parse_context R query w = (inr (ctx, rest), w1) ->
     Converter.scan self rest = [] ->
     Converter.parse R self query w =
       (inl (ValueError match ctx with
                        | Some _ => NoQuantity
                        | None => StartWithNumber
                        end), w1)) /\
  message NoQuantity <> message StartWithNumber /\
  message NoUnits = "No units specified" /\
  message StartWithNumber = "Start your query with a number".
Proof.
  split; [|split; [|split; [|split]]].
  - intros R w. unfold Converter.parse.
    rewrite parse_context_none by reflexivity.
    by replace (Converter.parse_quantity Converter.default "10")
      with (inr (A := exn) (Some 10%float, "")) by (by vm_compute).
  - intros R self query rest ctx w w1. apply parse_no_quantity.
  - discriminate.
  - reflexivity.
  - reflexivity.
Qed.

(** C7, witness: a query of units only, without and with a context. *)
Lemma parse_without_number_or_units_witness :
  Converter.parse Example.registry Converter.default " km" Example.empty_world
    = (inl (ValueError StartWithNumber), Example.empty_world) /\
  fst (Converter.parse Example.registry Converter.default "sp km"
                       Example.empty_world)
    = inl (ValueError NoQuantity).
Proof.
  destruct parse_without_number_or_units as (_ & H & _).
  split.
  - exact (H Example.registry Converter.default " km" " km" None
             Example.empty_world Example.empty_world eq_refl eq_refl).
  - exact (f_equal fst
             (H Example.registry Converter.default "sp km" "km" (Some "sp")
                Example.empty_world
                (Converter.enable_context "sp" Example.empty_world)
                eq_refl eq_refl)).
Defined.

(** C10: whenever the scan has matched something and the text it built
    is no floating-point literal, [parse] fails with the [ValueError] of
    [float] itself, which is none of the errors [convert.py] raises; a
    lone thousands separator (text [""]), a lone ["+"] (text ["+"]) and
    a sign between digits (text ["5-3"]) are such queries. *)
Theorem parse_bad_number_raises_float_error :
  (forall (R : Registry) (self : Converter.t) (query rest : string)
          (ctx : option string) (w w1 : world),
     Converter.parse_context R query w = (inr (ctx, rest), w1) ->
     Converter.scan self rest <> [] ->
     PyFloat.of_string (PyStr.join (Converter.scan self rest)) = None ->
     Converter.parse R self query w =
       (inl (FloatValueError (PyStr.join (Converter.scan self rest))), w1))
  /\
  (forall (text : string) (r : reason),
     FloatValueError text <> ValueError r) /\
  (forall (R : Registry) (w : world),
     Converter.scan Converter.default ", km" = [""] /\
     Converter.parse R Converter.default ", km" w
       = (inl (FloatValueError ""), w)) /\
  (forall (R : Registry) (w : world),
     Converter.scan Converter.default "+ km" = [""; "+"] /\
     Converter.parse R Converter.default "+ km" w
       = (inl (FloatValueError "+"), w)) /\
  (forall (R : Registry) (w : world),
     Converter.scan Converter.default "5-3 m" = ["5"; "-"; "3"] /\
     Converter.parse R Converter.default "5-3 m" w
       = (inl (FloatValueError "5-3"), w)).
Proof.
  split; [|split; [done|]].
  - intros R self query rest ctx w w1. apply parse_bad_number.
  - split; [|split]; intros R w; (split; [reflexivity|]).
    + apply (parse_bad_number R Converter.default ", km" w None ", km" w);
        [reflexivity | discriminate | reflexivity].
    + apply (parse_bad_number R Converter.default "+ km" w None "+ km" w);
        [reflexivity | discriminate | reflexivity].
    + apply (parse_bad_number R Converter.default "5-3 m" w None "5-3 m" w);
        [reflexivity | discriminate | reflexivity].
Qed.

(** C10, witness: two signs, after a context. *)
Lemma parse_bad_number_raises_float_error_witness :
  fst (Converter.parse Example.registry Converter.default "sp +-5 km"
                       Example.empty_world)
    = inl (FloatValueError "+-5").
Proof.
  destruct parse_bad_number_raises_float_error as (H & _).
  exact (f_equal fst
           (H Example.registry Converter.default "sp +-5 km" "+-5 km"
              (Some "sp") Example.empty_world
              (Converter.enable_context "sp" Example.empty_world)
              eq_refl ltac:(discriminate) eq_refl)).
Defined.

(** ** [Defaults.remove] *)

Section RemoveFacts.

Import Defaults.

Implicit Types (w : world) (d u x y : string) (l : list string).

Lemma list_remove_absent x l : x ∉ l -> list_remove x l = l.
Proof.
  induction l as [|y l IH]; [done|]. intros Hx. simpl.
  destruct (String.eqb_spec x y) as [->|Hne].
  - exfalso. apply Hx. by left.
  - f_equal. apply IH. intros H. apply Hx. by right.
Qed.

Lemma list_remove_subset x y l : y ∈ list_remove x l -> y ∈ l.
Proof.
  induction l as [|z l IH]; [done|]. simpl.
  destruct (String.eqb_spec x z) as [->|Hne].
  - intros H. by right.
  - intros H. apply elem_of_cons in H as [->|H]; [by left|].
    right. by apply IH.
Qed.

Lemma list_remove_NoDup x l : NoDup l -> NoDup (list_remove x l).
Proof.
  induction 1 as [|y l Hy Hnd IH]; simpl; [constructor|].
  destruct (String.eqb_spec x y) as [->|Hne]; [done|].
  constructor; [|done]. intros H. apply Hy. by eapply list_remove_subset.
Qed.

Lemma list_remove_gone x l : NoDup l -> x ∉ list_remove x l.
Proof.
  induction 1 as [|y l Hy Hnd IH]; simpl; [apply not_elem_of_nil|].
  destruct (String.eqb_spec x y) as [->|Hne]; [done|].
  intros H. apply elem_of_cons in H as [H|H]; [done|]. by apply IH.
Qed.

Lemma list_remove_snoc x l : x ∉ l -> list_remove x (l ++ [x]) = l.
Proof.
  induction l as [|y l IH]; simpl.
  - intros _. by rewrite String.eqb_refl.
  - intros Hx. destruct (String.eqb_spec x y) as [->|Hne].
    + exfalso. apply Hx. by left.
    + f_equal. apply IH. intros H. apply Hx. by right.
Qed.

(** [remove] when the unit is not saved: only the lookup has run. *)
Lemma remove_absent d u w :
  u ∉ saved d w -> remove d u w = snd (getitem d w).
Proof.
  intros Hnin. unfold remove, is_default.
  destruct (getitem d w) as [l w1] eqn:Hg.
  pose proof (getitem_spec d w l w1 Hg) as (Hs & _).
  by rewrite Hs, bool_decide_eq_false_2.
Qed.

(** [remove] when the unit is saved: the world it leaves. *)
Lemma remove_present d u w (l : loc) :
  defs w !! d = Some l -> u ∈ saved d w ->
  remove d u w = _save (mutate l (list_remove u (saved d w)) w).
Proof.
  intros Hl Hin. unfold remove, is_default.
  rewrite (getitem_hit d w l Hl).
  assert (deref w l = saved d w) as Hs by (unfold saved; by rewrite Hl).
  rewrite Hs, bool_decide_eq_true_2 by done. simpl.
  by rewrite (getitem_hit d w l Hl), Hs.
Qed.

Lemma saved_has_key d u w :
  u ∈ saved d w -> exists l : loc, defs w !! d = Some l.
Proof.
  unfold saved. destruct (defs w !! d); [eauto|].
  intros H. by apply not_elem_of_nil in H.
Qed.

(** The saved units after the list at [l0] is changed in place. *)
Lemma saved_mutate d (l0 : loc) v w :
  (l0 < length (heap w))%nat ->
  saved d (mutate l0 v w) =
    match defs w !! d with
    | Some l' => if decide (l' = l0) then v else deref w l'
    | None => []
    end.
Proof.
  intros Hlt. unfold saved; simpl.
  destruct (defs w !! d) as [l'|]; [|done].
  destruct (decide (l' = l0)) as [->|Hne].
  - by apply deref_mutate_eq.
  - by apply deref_mutate_ne.
Qed.

Lemma saved_save d w : saved d (_save w) = saved d w.
Proof. reflexivity. Qed.

Lemma stored_saved_save d w : stored_saved d (_save w) = saved d w.
Proof. reflexivity. Qed.

(** The lookup on the [defaultdict] leaves the persisted lists alone. *)
Lemma stored_saved_getitem d d' w :
  wf w -> stored_saved d' (snd (getitem d w)) = stored_saved d' w.
Proof.
  intros [_ Hs]. unfold stored_saved.
  destruct (getitem d w) as [l w1] eqn:Hg; simpl.
  pose proof (getitem_spec d w l w1 Hg) as (_ & _ & Hst & _ & _ & _ & Hold).
  rewrite Hst. destruct (stored w) as [m|]; [|done]. simpl in Hs.
  destruct (m !! d') as [l'|] eqn:Hl'; [|done].
  apply Hold. by apply (Hs d' l').
Qed.

Lemma persisted_getitem d w :
  wf w -> persisted (snd (getitem d w)) = persisted w.
Proof.
  intros [_ Hs]. unfold persisted.
  destruct (getitem d w) as [l w1] eqn:Hg; simpl.
  pose proof (getitem_spec d w l w1 Hg) as (_ & _ & Hst & _ & _ & _ & Hold).
  rewrite Hst. destruct (stored w) as [m|]; [|done]. simpl in *.
  f_equal. apply map_fmap_ext. intros k l' Hk.
  apply Hold. by apply (Hs k l').
Qed.

(** The saved units after [add], for every dimensionality. *)
Lemma saved_add d d' u w :
  wf w ->
  saved d' (add d u w) =
    if decide (u ∈ saved d w) then saved d' w
    else if decide (defs (snd (getitem d w)) !! d'
                    = Some (fst (getitem d w)))
    then saved d w ++ [u]
    else saved d' w.
Proof.
  intros Hwf. destruct (decide (u ∈ saved d w)) as [Hin|Hnin].
  - by rewrite add_present.
  - rewrite add_absent, saved_save by done.
    destruct (getitem_wf d w Hwf) as [_ Hlt].
    rewrite saved_mutate by done.
    pose proof (getitem_saved d d' w Hwf) as Hsame.
    unfold saved at 1 in Hsame.
    destruct (defs (snd (getitem d w)) !! d') as [l'|] eqn:Hl'.
    + destruct (decide (l' = _)) as [->|Hne].
      * by rewrite decide_True.
      * rewrite decide_False by congruence. done.
    + by rewrite decide_False.
Qed.

(** The saved units after [remove], for every dimensionality. *)
Lemma saved_remove d d' u w :
  wf w ->
  saved d' (remove d u w) =
    if decide (u ∈ saved d w)
    then if decide (defs w !! d' = defs w !! d)
         then list_remove u (saved d w)
         else saved d' w
    else saved d' w.
Proof.
  intros Hwf. destruct (decide (u ∈ saved d w)) as [Hin|Hnin].
  - destruct (saved_has_key d u w Hin) as [l Hl].
    rewrite (remove_present d u w l Hl Hin), saved_save.
    rewrite saved_mutate by (by apply (proj1 Hwf d l)).
    rewrite Hl. unfold saved at 3.
    destruct (defs w !! d') as [l'|].
    + destruct (decide (l' = l)) as [->|Hne].
      * by rewrite decide_True.
      * by rewrite decide_False by congruence.
    + by rewrite decide_False.
  - rewrite remove_absent by done. by apply getitem_saved.
Qed.

Lemma writes_add d u w :
  writes (add d u w)
  = if decide (u ∈ saved d w) then writes w else S (writes w).
Proof.
  destruct (decide (u ∈ saved d w)) as [Hin|Hnin].
  - by rewrite add_present.
  - rewrite add_absent by done. simpl.
    by destruct (getitem_spec d w _ _ (surjective_pairing _))
      as (_ & _ & _ & -> & _).
Qed.

Lemma writes_remove d u w :
  writes (remove d u w)
  = if decide (u ∈ saved d w) then S (writes w) else writes w.
Proof.
  destruct (decide (u ∈ saved d w)) as [Hin|Hnin].
  - destruct (saved_has_key d u w Hin) as [l Hl].
    by rewrite (remove_present d u w l Hl Hin).
  - rewrite remove_absent by done.
    by destruct (getitem_spec d w _ _ (surjective_pairing _))
      as (_ & _ & _ & -> & _).
Qed.

Lemma wf_remove d u w : wf w -> wf (remove d u w).
Proof.
  intros Hwf. destruct (decide (u ∈ saved d w)) as [Hin|Hnin].
  - destruct (saved_has_key d u w Hin) as [l Hl].
    rewrite (remove_present d u w l Hl Hin).
    by apply wf_save, wf_mutate.
  - rewrite remove_absent by done. by apply getitem_wf.
Qed.

Lemma saved_alloc d v w :
  wf w -> saved d (snd (alloc v w)) = saved d w.
Proof.
  intros [Hd _]. unfold saved; simpl.
  destruct (defs w !! d) as [l|] eqn:Hl; [|done].
  apply (deref_alloc_old v w). by apply (Hd d l).
Qed.

Lemma stored_saved_alloc d v w :
  wf w -> stored_saved d (snd (alloc v w)) = stored_saved d w.
Proof.
  intros [_ Hs]. unfold stored_saved; simpl.
  destruct (stored w) as [m|]; [|done]. simpl in Hs.
  destruct (m !! d) as [l|] eqn:Hl; [|done].
  apply (deref_alloc_old v w). by apply (Hs d l).
Qed.

(** A new key gets a new list, so the lists stay apart. *)
Lemma separate_getitem d w :
  wf w -> separate w -> separate (snd (getitem d w)).
Proof.
  intros [Hd _] Hsep. unfold getitem.
  destruct (defs w !! d) as [l0|] eqn:Hl; simpl; [done|].
  intros d1 d2 l. simpl.
  destruct (decide (d = d1)) as [<-|H1], (decide (d = d2)) as [<-|H2];
    try done.
  - rewrite lookup_insert_eq, lookup_insert_ne by done.
    intros [= <-] H. apply Hd in H. simpl in H. lia.
  - rewrite lookup_insert_eq, lookup_insert_ne by done.
    intros H [= <-]. apply Hd in H. simpl in H. lia.
  - rewrite !lookup_insert_ne by done. apply Hsep.
Qed.

End RemoveFacts.

(** X1: [remove] of a saved unit takes its first occurrence out of the
    list of the dimensionality and writes the mapping to the settings
    store at once; when the list has no duplicate the unit is no
    default any more. *)
Theorem remove_saved_unit (d u : string) (w : world) :
  wf w -> u ∈ saved d w ->
  saved d (Defaults.remove d u w) = Defaults.list_remove u (saved d w) /\
  stored_saved d (Defaults.remove d u w)
    = Defaults.list_remove u (saved d w) /\
  writes (Defaults.remove d u w) = S (writes w) /\
  (NoDup (saved d w) ->
   fst (Defaults.is_default d u (Defaults.remove d u w)) = false).
Proof.
  intros Hwf Hin.
  assert (saved d (Defaults.remove d u w)
          = Defaults.list_remove u (saved d w)) as Hs.
  { rewrite saved_remove by done. by rewrite !decide_True. }
  split; [exact Hs|]. split; [|split].
  - destruct (saved_has_key d u w Hin) as [l Hl].
    rewrite (remove_present d u w l Hl Hin), stored_saved_save.
    by rewrite <- (saved_save d), <- (remove_present d u w l Hl Hin).
  - rewrite writes_remove. by rewrite decide_True.
  - intros Hnd. rewrite is_default_saved, Hs.
    apply bool_decide_eq_false_2. by apply list_remove_gone.
Qed.

(** X1, witness: meters are taken off the saved lengths. *)
Lemma remove_saved_unit_witness :
  saved "[length]" (Defaults.remove "[length]" "meter" Example.length_world)
    = ["mile"] /\
  writes (Defaults.remove "[length]" "meter" Example.length_world) = 1%nat.
Proof.
  destruct (remove_saved_unit "[length]" "meter" Example.length_world
              length_world_wf) as (H1 & _ & H3 & _).
  - apply (bool_decide_unpack _). by vm_compute.
  - split; [exact H1 | exact H3].
Defined.

(** X2: [remove] of a unit that is not saved changes no list of saved
    units, writes nothing to the settings store and leaves the persisted
    mapping as it is. *)
Theorem remove_unsaved_unit (d u : string) (w : world) :
  wf w -> u ∉ saved d w ->
  (forall d', saved d' (Defaults.remove d u w) = saved d' w) /\
  persisted (Defaults.remove d u w) = persisted w /\
  writes (Defaults.remove d u w) = writes w.
Proof.
  intros Hwf Hnin. split; [|split].
  - intros d'. rewrite saved_remove by done. by rewrite decide_False.
  - rewrite remove_absent by done. by apply persisted_getitem.
  - rewrite writes_remove. by rewrite decide_False.
Qed.

(** X2, witness: kilometers were never saved. *)
Lemma remove_unsaved_unit_witness :
  saved "[length]" (Defaults.remove "[length]" "km" Example.length_world)
    = ["mile"; "meter"] /\
  writes (Defaults.remove "[length]" "km" Example.length_world) = 0%nat.
Proof.
  destruct (remove_unsaved_unit "[length]" "km" Example.length_world
              length_world_wf) as (H1 & _ & H3).
  - apply (bool_decide_unpack _). by vm_compute.
  - split; [exact (H1 "[length]") | exact H3].
Defined.

(** X3: [add] of a new unit followed by [remove] of it gives the list
    of saved units back, after two writes to the settings store. *)
Theorem add_then_remove (d u : string) (w : world) :
  wf w -> u ∉ saved d w ->
  saved d (Defaults.remove d u (Defaults.add d u w)) = saved d w /\
  writes (Defaults.remove d u (Defaults.add d u w)) = S (S (writes w)).
Proof.
  intros Hwf Hnin.
  assert (saved d (Defaults.add d u w) = saved d w ++ [u]) as Ha
    by (by apply saved_add_absent).
  assert (u ∈ saved d (Defaults.add d u w)) as Hin.
  { rewrite Ha. apply elem_of_app. right. by left. }
  split.
  - rewrite saved_remove by (by apply wf_add).
    rewrite !decide_True by done. rewrite Ha.
    by apply list_remove_snoc.
  - rewrite writes_remove, decide_True by done.
    by rewrite writes_add, decide_False.
Qed.

(** X3, witness: kilometers are saved and taken off again. *)
Lemma add_then_remove_witness :
  saved "[length]"
        (Defaults.remove "[length]" "km"
           (Defaults.add "[length]" "km" Example.length_world))
    = ["mile"; "meter"].
Proof.
  refine (proj1 (add_then_remove "[length]" "km" Example.length_world
                   length_world_wf _)).
  apply (bool_decide_unpack _). by vm_compute.
Defined.

(** ** Invariants of [Defaults] *)

(** X4: [add] and [remove] never make a duplicate: when no
    dimensionality has a duplicate among its saved units, none has one
    afterwards. *)
Theorem duplicate_free_kept (d u : string) (w : world) :
  wf w -> duplicate_free w ->
  duplicate_free (Defaults.add d u w) /\
  duplicate_free (Defaults.remove d u w).
Proof.
  intros Hwf Hnd. split; intros d'.
  - rewrite saved_add by done.
    destruct (decide (u ∈ saved d w)) as [Hin|Hnin]; [apply Hnd|].
    destruct (decide _); [|apply Hnd].
    apply NoDup_app. repeat split; [apply Hnd| |apply NoDup_singleton].
    intros x Hx Hxu. apply list_elem_of_singleton in Hxu. by subst.
  - rewrite saved_remove by done.
    destruct (decide (u ∈ saved d w)); [|apply Hnd].
    destruct (decide _); [|apply Hnd].
    apply list_remove_NoDup, Hnd.
Qed.

Lemma length_world_duplicate_free : duplicate_free Example.length_world.
Proof.
  intros d. unfold saved. simpl.
  destruct (decide (d = "[length]")) as [->|Hne].
  - rewrite lookup_singleton_eq. simpl.
    apply (bool_decide_unpack _). by vm_compute.
  - rewrite lookup_singleton_ne by done. constructor.
Qed.

(** X4, witness: the saved lengths stay free of duplicates. *)
Lemma duplicate_free_kept_witness :
  NoDup (saved "[length]"
           (Defaults.add "[length]" "mile" Example.length_world)) /\
  NoDup (saved "[length]"
           (Defaults.remove "[length]" "mile" Example.length_world)).
Proof.
  destruct (duplicate_free_kept "[length]" "mile" Example.length_world
              length_world_wf length_world_duplicate_free) as [H1 H2].
  split; [exact (H1 "[length]") | exact (H2 "[length]")].
Defined.

(** X5: a [Defaults] loaded from the settings store holds what the store
    holds, and this is kept by every operation: after [add], [remove],
    [defaults] and [is_default] the store holds, for every
    dimensionality, the units that are saved in memory. *)
Theorem memory_matches_store (d u : string) (w : world) :
  synced (Defaults._load w) /\
  (wf w -> synced w ->
   synced (Defaults.add d u w) /\
   synced (Defaults.remove d u w) /\
   synced (snd (Defaults.defaults d w)) /\
   synced (snd (Defaults.is_default d u w))).
Proof.
  split.
  - intros d'. unfold stored_saved, saved, Defaults._load; simpl.
    destruct (stored w) as [m|]; simpl; [done|].
    by rewrite lookup_empty.
  - intros Hwf Hsync.
    assert (synced (snd (Defaults.getitem d w))) as Hg.
    { intros d'. rewrite stored_saved_getitem, getitem_saved by done.
      apply Hsync. }
    split; [|split; [|split]].
    + destruct (decide (u ∈ saved d w)) as [Hin|Hnin].
      * by rewrite add_present.
      * rewrite add_absent by done. intros d'.
        by rewrite stored_saved_save, saved_save.
    + destruct (decide (u ∈ saved d w)) as [Hin|Hnin].
      * destruct (saved_has_key d u w Hin) as [l Hl].
        rewrite (remove_present d u w l Hl Hin). intros d'.
        by rewrite stored_saved_save, saved_save.
      * by rewrite remove_absent.
    + rewrite defaults_alloc. intros d'.
      pose proof (proj1 (getitem_wf d w Hwf)) as Hwf1.
      rewrite stored_saved_alloc, saved_alloc by done. apply Hg.
    + by rewrite is_default_world.
Qed.

Lemma length_world_synced : synced Example.length_world.
Proof. intros d. reflexivity. Qed.

(** X5, witness: after kilometers are added the store holds them. *)
Lemma memory_matches_store_witness :
  stored_saved "[length]"
    (Defaults.add "[length]" "km" Example.length_world)
  = saved "[length]" (Defaults.add "[length]" "km" Example.length_world).
Proof.
  destruct (memory_matches_store "[length]" "km" Example.length_world)
    as [_ H].
  destruct (H length_world_wf length_world_synced) as [Ha _].
  exact (Ha "[length]").
Defined.

(** X6: when no two dimensionalities share a list, [add] and [remove]
    for one dimensionality leave the saved units of every other one as
    they are, and still no two dimensionalities share a list. *)
Theorem other_dimensionalities_untouched (d d' u : string) (w : world) :
  wf w -> separate w -> d <> d' ->
  saved d' (Defaults.add d u w) = saved d' w /\
  saved d' (Defaults.remove d u w) = saved d' w /\
  separate (Defaults.add d u w) /\
  separate (Defaults.remove d u w).
Proof.
  intros Hwf Hsep Hne.
  pose proof (separate_getitem d w Hwf Hsep) as Hsep1.
  split; [|split; [|split]].
  - rewrite saved_add by done.
    destruct (decide (u ∈ saved d w)); [done|].
    destruct (decide _) as [Heq|]; [|done].
    destruct (getitem_spec d w _ _ (surjective_pairing _)) as (_ & Hl & _).
    by destruct (Hne (Hsep1 d d' _ Hl Heq)).
  - rewrite saved_remove by done.
    destruct (decide (u ∈ saved d w)) as [Hin|]; [|done].
    destruct (decide _) as [Heq|]; [|done].
    destruct (saved_has_key d u w Hin) as [l Hl].
    rewrite Hl in Heq. by destruct (Hne (Hsep d d' l Hl Heq)).
  - destruct (decide (u ∈ saved d w)) as [Hin|Hnin].
    + by rewrite add_present.
    + by rewrite add_absent.
  - destruct (decide (u ∈ saved d w)) as [Hin|Hnin].
    + destruct (saved_has_key d u w Hin) as [l Hl].
      by rewrite (remove_present d u w l Hl Hin).
    + by rewrite remove_absent.
Qed.

Lemma length_world_separate : separate Example.length_world.
Proof.
  intros d d' l H1 H2. simpl in *.
  apply lookup_singleton_Some in H1 as [<- _].
  by apply lookup_singleton_Some in H2 as [<- _].
Qed.

(** X6, witness: a unit saved for times leaves the lengths alone. *)
Lemma other_dimensionalities_untouched_witness :
  saved "[length]" (Defaults.add "[time]" "second" Example.length_world)
    = ["mile"; "meter"].
Proof.
  refine (proj1 (other_dimensionalities_untouched "[time]" "[length]"
                   "second" Example.length_world length_world_wf
                   length_world_separate _)).
  discriminate.
Defined.

(** X7: after [add] the unit is a default of the dimensionality, and
    the first [add] for a dimensionality that had no list gives it the
    list of that one unit. *)
Theorem is_default_after_add (d u : string) (w : world) :
  wf w ->
  fst (Defaults.is_default d u (Defaults.add d u w)) = true /\
  (defs w !! d = None -> saved d (Defaults.add d u w) = [u]).
Proof.
  intros Hwf.
  assert (u ∉ saved d w -> saved d (Defaults.add d u w) = saved d w ++ [u])
    as Hnew by (by apply saved_add_absent).
  split.
  - rewrite is_default_saved. apply bool_decide_eq_true_2.
    destruct (decide (u ∈ saved d w)) as [Hin|Hnin].
    + by rewrite add_present.
    + rewrite Hnew by done. apply elem_of_app. right. by left.
  - intros Hd.
    assert (saved d w = []) as He by (unfold saved; by rewrite Hd).
    rewrite Hnew; rewrite He; [done|]. apply not_elem_of_nil.
Qed.

(** X7, witness: seconds are the first unit saved for times. *)
Lemma is_default_after_add_witness :
  fst (Defaults.is_default "[time]" "second"
         (Defaults.add "[time]" "second" Example.length_world)) = true /\
  saved "[time]" (Defaults.add "[time]" "second" Example.length_world)
    = ["second"].
Proof.
  destruct (is_default_after_add "[time]" "second" Example.length_world
              length_world_wf) as [H1 H2].
  split; [exact H1 | apply H2; reflexivity].
Defined.



(** ** More on [Formatter] *)

Section FormatterBounds.

Import Formatter PyStr.

Implicit Types (self : t) (n : float) (p m : Z).

(** The search stops at [m] at the latest. *)
Lemma search_upper (k : nat) n m p i q j :
  p <= m -> search k n m p i = inr (q, j) -> q <= m.
Proof.
  revert p i. induction k as [|k IH]; intros p i Hle; simpl.
  - intros [= <- _]. lia.
  - destruct (Z.ltb_spec p m).
    + destruct (PyFloat.of_int (10 ^ p)); [|done].
      destruct (PrimFloat.leb 10 (PrimFloat.mul n f)).
      * intros [= <- _]. lia.
      * apply IH. lia.
    + intros [= <- _]. lia.
Qed.

(** Trimming only lowers the count. *)
Lemma trim_upper (k : nat) (s : string) p : trim k s p <= p.
Proof.
  revert s p. induction k as [|k IH]; intros s p; simpl; [lia|].
  destruct (endswith0 s); [|lia].
  specialize (IH (butlast s) (p - 1)). lia.
Qed.

(** Every power of ten up to [10 ** 308] is a [float]. *)
Lemma of_int_pow10 p :
  0 <= p <= 308 -> PyFloat.of_int (10 ^ p) <> None.
Proof.
  intros Hp.
  assert (forallb (fun k => match PyFloat.of_int (10 ^ Z.of_nat k) with
                            | Some _ => true
                            | None => false
                            end) (seq 0 309) = true) as Hall
    by (by vm_compute).
  rewrite forallb_forall in Hall.
  specialize (Hall (Z.to_nat p)).
  rewrite Z2Nat.id in Hall by lia.
  destruct (PyFloat.of_int (10 ^ p)); [done|].
  assert (false = true); [|done].
  apply Hall, in_seq. lia.
Qed.

(** With [m] up to 309 the search raises nothing. *)
Lemma search_safe (k : nat) n m p i e :
  0 <= p -> m <= 309 -> search k n m p i <> inl e.
Proof.
  revert p i. induction k as [|k IH]; intros p i Hp Hm; simpl; [done|].
  destruct (Z.ltb_spec p m); [|done].
  pose proof (of_int_pow10 p) as Hpow.
  destruct (PyFloat.of_int (10 ^ p)); [|by destruct Hpow; [lia|]].
  destruct (PrimFloat.leb 10 (PrimFloat.mul n f)); [done|].
  apply IH; lia.
Qed.

End FormatterBounds.

(** X9: whatever the number, the count of decimals that
    [_decimal_places] chooses lies between the configured
    [decimal_places] and [max(decimal_places, 10) + 1]. *)
Theorem decimal_places_bounds (self : Formatter.t) (n : float) (p : Z) :
  Formatter._decimal_places self n = inr p ->
  Z.of_nat (Formatter.decimal_places self) <= p
  <= Z.max (Z.of_nat (Formatter.decimal_places self)) 10 + 1.
Proof.
  intros Hp. split; [by eapply _decimal_places_floor|].
  revert Hp. unfold Formatter._decimal_places.
  destruct (negb _ || _).
  - intros [= <-]. lia.
  - destruct (Formatter.search _ n _ _ None) as [e|[q [i|]]] eqn:Hs;
      try done.
    apply search_upper in Hs; [|lia].
    destruct (PyStr.split_point (PyFloat.str i)) as [[a s]|].
    + intros [= <-].
      pose proof (trim_upper (String.length s) s q). lia.
    + intros [= <-]. lia.
Qed.

(** X9, witness: 0.000123 gets five decimals, within 2 and 11. *)
Lemma decimal_places_bounds_witness :
  Formatter._decimal_places
    {| Formatter.decimal_places := 2;
       Formatter.decimal_separator := ".";
       Formatter.thousands_separator := ",";
       Formatter.dynamic_decimals := true |}
    0x1.01f31f46ed246p-13%float = inr 5 /\
  2 <= 5 <= 11.
Proof.
  split; [reflexivity|].
  exact (decimal_places_bounds
           {| Formatter.decimal_places := 2;
              Formatter.decimal_separator := ".";
              Formatter.thousands_separator := ",";
              Formatter.dynamic_decimals := true |}
           0x1.01f31f46ed246p-13%float 5 eq_refl).
Defined.

(** X10: with [decimal_places] up to 308 neither entry point of the
    formatter raises, whatever the number ([nan] and the infinities
    included): every power of ten the search multiplies by is a
    [float]. *)
Theorem formatted_never_raises (self : Formatter.t) (n : float)
  (unit : option string) :
  (Formatter.decimal_places self <= 308)%nat ->
  (exists s, Formatter.formatted self n unit = inr s) /\
  (exists s, Formatter.formatted_no_thousands self n unit = inr s).
Proof.
  intros Hdp.
  assert (exists p, Formatter._decimal_places self n = inr p) as [p Hp].
  { unfold Formatter._decimal_places.
    destruct (negb _ || _); [eauto|].
    destruct (Formatter.search _ n _ _ None) as [e|[q [i|]]] eqn:Hs.
    - apply search_safe in Hs; [done|lia|lia].
    - destruct (PyStr.split_point (PyFloat.str i)) as [[a s]|]; eauto.
    - apply search_binds in Hs; [done|lia|lia]. }
  unfold Formatter.formatted, Formatter.formatted_no_thousands.
  rewrite Hp. eauto.
Qed.

(** X10, witness: not a number, with the default two decimals. *)
Lemma formatted_never_raises_witness :
  exists s,
    Formatter.formatted
      {| Formatter.decimal_places := 2;
         Formatter.decimal_separator := ".";
         Formatter.thousands_separator := ",";
         Formatter.dynamic_decimals := true |} nan None = inr s.
Proof.
  refine (proj1 (formatted_never_raises _ nan None _)). simpl. lia.
Defined.

(** ** More on [Converter.convert] *)

Section ConvertMore.

Import Converter.

Variable R : Registry.

Implicit Types (i : Input.t) (w : world) (u : string).

Lemma persisted_alloc v w :
  wf w -> persisted (snd (alloc v w)) = persisted w.
Proof.
  intros [_ Hs]. unfold persisted; simpl.
  destruct (stored w) as [m|]; [|done]. simpl in *.
  f_equal. apply map_fmap_ext. intros k l Hk.
  apply (deref_alloc_old v w). by apply (Hs k l).
Qed.

(** What [convert_each] does at the first destination that fails. *)
Lemma convert_each_app i ctxs pre post rs :
  convert_each R i ctxs pre = inr rs ->
  convert_each R i ctxs (pre ++ post) =
    match convert_each R i ctxs post with
    | inl e => inl e
    | inr rs' => inr (rs ++ rs')
    end.
Proof.
  revert rs. induction pre as [|u pre IH]; intros rs; simpl.
  - intros [= <-]. by destruct (convert_each R i ctxs post).
  - destruct (resolve R u); [|done].
    destruct (to R ctxs _ _ u); [|done].
    destruct (convert_each R i ctxs pre) as [e|rs0]; [done|].
    intros [= <-]. rewrite (IH rs0 eq_refl).
    by destruct (convert_each R i ctxs post).
Qed.

Lemma destinations_contexts i w :
  contexts (snd (destinations i w)) = contexts w.
Proof.
  unfold destinations. destruct (Input.to_unit i); [done|].
  rewrite defaults_alloc. simpl.
  by destruct (getitem_spec (Input.dimensionality i) w _ _
                 (surjective_pairing _)) as (_ & _ & _ & _ & -> & _).
Qed.

Lemma destinations_world i w :
  snd (destinations i w) =
    match Input.to_unit i with
    | Some _ => w
    | None => snd (Defaults.defaults (Input.dimensionality i) w)
    end.
Proof.
  unfold destinations. destruct (Input.to_unit i); [done|].
  by destruct (Defaults.defaults _ w).
Qed.

End ConvertMore.

(** X11: [convert] writes nothing to the settings store, changes the
    saved units of no dimensionality and enables no context, whether it
    returns or raises. *)
Theorem convert_leaves_store (R : Registry) (i : Input.t) (w : world) :
  wf w ->
  (forall d, saved d (snd (Converter.convert R i w)) = saved d w) /\
  persisted (snd (Converter.convert R i w)) = persisted w /\
  writes (snd (Converter.convert R i w)) = writes w /\
  contexts (snd (Converter.convert R i w)) = contexts w.
Proof.
  intros Hwf. rewrite convert_world, destinations_world.
  destruct (Input.to_unit i); [done|].
  rewrite defaults_alloc.
  pose proof (proj1 (getitem_wf (Input.dimensionality i) w Hwf)) as Hwf1.
  destruct (getitem_spec (Input.dimensionality i) w _ _
              (surjective_pairing _)) as (_ & _ & _ & Hw & Hc & _).
  split; [|split; [|split]].
  - intros d. rewrite saved_alloc by done. by apply getitem_saved.
  - rewrite persisted_alloc by done. by apply persisted_getitem.
  - exact Hw.
  - exact Hc.
Qed.

(** X11, witness: a conversion to the saved defaults. *)
Lemma convert_leaves_store_witness :
  saved "[length]"
        (snd (Converter.convert Example.registry (Example.km_to None)
                                Example.length_world))
    = ["mile"; "meter"] /\
  writes (snd (Converter.convert Example.registry (Example.km_to None)
                                 Example.length_world)) = 0%nat.
Proof.
  destruct (convert_leaves_store Example.registry (Example.km_to None)
              Example.length_world length_world_wf) as (H1 & _ & H3 & _).
  split; [exact (H1 "[length]") | exact H3].
Defined.

(** X12: with no destination named, a successful [convert] gives one
    [Conversion] for each saved default of the dimensionality other
    than [from_unit], and none to [from_unit] itself. *)
Theorem convert_defaults_skip_from_unit (R : Registry) (i : Input.t)
  (w : world) (cs : list Conversion.t) :
  Input.to_unit i = None ->
  fst (Converter.convert R i w) = inr cs ->
  Forall (fun c => Conversion.to_unit c <> Input.from_unit i) cs /\
  (forall u, u ∈ map Conversion.to_unit cs <->
             u ∈ saved (Input.dimensionality i) w /\
             u <> Input.from_unit i) /\
  (length cs <= length (saved (Input.dimensionality i) w))%nat.
Proof.
  intros Hto Hcs. apply convert_ok in Hcs.
  apply convert_each_ok in Hcs as [_ Hmap].
  unfold destination_set in Hmap. rewrite Hto in Hmap.
  assert (forall u, u ∈ map Conversion.to_unit cs <->
                    u ∈ saved (Input.dimensionality i) w /\
                    u <> Input.from_unit i) as Hiff.
  { intros u. rewrite Hmap, list_elem_of_filter. tauto. }
  split; [|split; [exact Hiff|]].
  - apply Forall_forall. intros c Hc.
    apply (Hiff (Conversion.to_unit c)).
    apply list_elem_of_In, in_map. by apply list_elem_of_In.
  - rewrite <- (length_map Conversion.to_unit cs), Hmap.
    apply length_filter.
Qed.

(** X12, witness: miles are saved, and miles are converted. *)
Lemma convert_defaults_skip_from_unit_witness :
  exists cs,
    fst (Converter.convert Example.registry
           {| Input.number := 5%float;
              Input.dimensionality := "[length]";
              Input.from_unit := "mile";
              Input.to_unit := None;
              Input.context := None |} Example.length_world) = inr cs /\
    map Conversion.to_unit cs = ["meter"] /\
    Forall (fun c => Conversion.to_unit c <> "mile") cs.
Proof.
  set (i := {| Input.number := 5%float;
               Input.dimensionality := "[length]";
               Input.from_unit := "mile";
               Input.to_unit := None;
               Input.context := None |}).
  eexists. split; [reflexivity|]. split; [reflexivity|].
  exact (proj1 (convert_defaults_skip_from_unit Example.registry i
                  Example.length_world _ eq_refl eq_refl)).
Defined.

(** [convert] in terms of the destination set. *)
Lemma convert_eval (R : Registry) (i : Input.t) (w : world) :
  fst (Converter.convert R i w) =
    match destination_set i w with
    | [] => inl NoToUnits
    | units =>
        match resolve R (Input.from_unit i) with
        | None => inl (UndefinedUnitError (Input.from_unit i))
        | Some _ => Converter.convert_each R i (contexts w) units
        end
    end.
Proof.
  rewrite <- destinations_set, <- (destinations_contexts i w).
  unfold Converter.convert.
  destruct (Converter.destinations i w) as [units w1]; simpl.
  destruct units; [done|].
  by destruct (resolve R (Input.from_unit i)).
Qed.

(** X13: [convert] is all or nothing: at the first destination that the
    registry does not resolve it raises "Unknown unit" for it, and at
    the first one it cannot convert to it raises the registry's
    [DimensionalityError]; the conversions made before are not
    returned. *)
Theorem convert_stops_at_first_failure (R : Registry) (i : Input.t)
  (w : world) (pre post : list string) (u : string)
  (rs : list Conversion.t) :
  destination_set i w = pre ++ u :: post ->
  is_Some (resolve R (Input.from_unit i)) ->
  Converter.convert_each R i (contexts w) pre = inr rs ->
  (resolve R u = None ->
   fst (Converter.convert R i w) = inl (ValueError (UnknownUnit u))) /\
  (is_Some (resolve R u) ->
   to R (contexts w) (Input.number i) (Input.from_unit i) u = None ->
   fst (Converter.convert R i w)
     = inl (DimensionalityError (Input.from_unit i) u)).
Proof.
  intros Hset [fq Hf] Hpre.
  assert (fst (Converter.convert R i w)
          = Converter.convert_each R i (contexts w) (pre ++ u :: post))
    as Hc.
  { rewrite convert_eval, Hset, Hf. by destruct pre. }
  rewrite Hc, (convert_each_app R i _ pre (u :: post) rs Hpre). simpl.
  split.
  - by intros ->.
  - intros [tq ->] Hto. by rewrite Hto.
Qed.

(** X13, witness: miles convert, furlongs are unknown, nothing is
    returned. *)
Lemma convert_stops_at_first_failure_witness :
  fst (Converter.convert Example.registry (Example.km_to None)
                         Example.stale_world)
    = inl (ValueError (UnknownUnit "furlong")).
Proof.
  refine (proj1 (convert_stops_at_first_failure Example.registry
                   (Example.km_to None) Example.stale_world
                   ["mile"] [] "furlong" _ eq_refl _ eq_refl) eq_refl).
  eexists; reflexivity.
Defined.

(** ** More on [Converter.parse] *)

Section ParseMore.

Import Converter PyStr.

Implicit Types (self : t) (query s r : string) (c : ascii) (w : world).






(** What [parse_quantity] gives back. *)
Lemma parse_quantity_ok self query x tail :
  parse_quantity self query = inr (Some x, tail) ->
  scan self query <> [] /\
  PyFloat.of_string (join (scan self query)) = Some x /\
  tail = strip (drop (length (scan self query)) query).
Proof.
  unfold parse_quantity.
  destruct (scan self query) as [|e l] eqn:Hs; [done|].
  simpl length. simpl Nat.eqb. cbv iota.
  destruct (PyFloat.of_string _); [|done].
  by intros [= <- <-].
Qed.

Lemma parse_quantity_raises self query e :
  parse_quantity self query = inl e ->
  e = FloatValueError (join (scan self query)).
Proof.
  unfold parse_quantity.
  destruct (length (scan self query) =? 0)%nat; [done|].
  destruct (PyFloat.of_string _); [done|]. by intros [= <-].
Qed.

End ParseMore.

(** [parse] changes the world as [parse_context] does. *)
Lemma parse_world (R : Registry) (self : Converter.t) (query : string)
  (w : world) :
  snd (Converter.parse R self query w)
  = snd (Converter.parse_context R query w).
Proof.
  unfold Converter.parse.
  destruct (Converter.parse_context R query w) as [[e|[ctx rest]] w1];
    [done|]. simpl.
  destruct (Converter.parse_quantity self rest) as [e|[[x|] tail]];
    [done| |by destruct ctx].
  destruct (String.length tail =? 0)%nat; [done|].
  by destruct (Converter.parse_units R tail x) as [e|[[m fq] tq]].
Qed.

(** The tokens of [split] are not empty and hold no whitespace. *)
Lemma split_go_clean (s : string) (cur : list ascii) :
  forallb (fun c => negb (PyStr.isspace c)) cur = true ->
  Forall (fun t => t <> "" /\
                   forallb (fun c => negb (PyStr.isspace c))
                           (list_ascii_of_string t) = true)
         (PyStr.split_go s cur).
Proof.
  assert (forall cur,
            forallb (fun c => negb (PyStr.isspace c)) cur = true ->
            Forall (fun t => t <> "" /\
                             forallb (fun c => negb (PyStr.isspace c))
                                     (list_ascii_of_string t) = true)
                   (PyStr.flush cur)) as Hflush.
  { intros [|c l] Hl; [constructor|]. constructor; [|constructor].
    split.
    - intros H. apply (f_equal list_ascii_of_string) in H.
      rewrite list_ascii_of_string_of_list_ascii in H.
      apply (f_equal (@length ascii)) in H.
      rewrite length_rev in H. discriminate H.
    - rewrite list_ascii_of_string_of_list_ascii.
      apply forallb_forall. intros x Hx. apply in_rev in Hx.
      by apply (proj1 (forallb_forall _ _) Hl). }
  revert cur. induction s as [|c s IH]; intros cur Hcur; simpl.
  - by apply Hflush.
  - destruct (PyStr.isspace c) eqn:Hc.
    + apply Forall_app. split; [by apply Hflush | by apply IH].
    + apply IH. simpl. by rewrite Hc.
Qed.

(** Stripping such a token changes nothing. *)
Lemma strip_clean (t : string) :
  forallb (fun c => negb (PyStr.isspace c)) (list_ascii_of_string t) = true ->
  PyStr.strip t = t.
Proof.
  intros Ht. unfold PyStr.strip.
  assert (PyStr.lstrip t = t) as ->.
  { destruct t as [|c t]; [done|]. simpl in *.
    apply andb_true_iff in Ht as [Hc _].
    by destruct (PyStr.isspace c). }
  induction t as [|c t IH]; [done|]. simpl in *.
  apply andb_true_iff in Ht as [Hc Ht].
  destruct (PyStr.isspace c); [done|]. simpl. by rewrite IH.
Qed.



(** X15: [parse] never touches the default-unit store; all it leaves
    behind is the context it enabled, and that stays enabled also when
    the rest of the query is refused. *)
Theorem parse_touches_only_contexts (R : Registry) (self : Converter.t)
  (query : string) (w : world) :
  heap (snd (Converter.parse R self query w)) = heap w /\
  defs (snd (Converter.parse R self query w)) = defs w /\
  stored (snd (Converter.parse R self query w)) = stored w /\
  writes (snd (Converter.parse R self query w)) = writes w /\
  contexts (snd (Converter.parse R self query w)) =
    if String.eqb (Converter.leading_letters query) "" then contexts w
    else if known_context R (Converter.leading_letters query)
    then Converter.leading_letters query :: contexts w
    else contexts w.
Proof.
  rewrite parse_world. unfold Converter.parse_context.
  destruct (String.eqb (Converter.leading_letters query) ""); [done|].
  by destruct (known_context R (Converter.leading_letters query)).
Qed.

(** X16: the scan appends one entry for every quantity character it
    matches and one more for every ["+"] among them, so [qty] is longer
    than the matched text by the number of its ["+"], and the tail that
    [parse_quantity] cuts off starts that many characters too far. *)
Theorem plus_shifts_tail (self : Converter.t) (query : string) :
  length (Converter.scan self query)
    = (String.length (matched self query)
       + occurrences "+" (matched self query))%nat /\
  (forall x tail,
     Converter.parse_quantity self query = inr (Some x, tail) ->
     tail = PyStr.strip
              (PyStr.drop (String.length (matched self query)
                           + occurrences "+" (matched self query)) query)).
Proof.
  assert (length (Converter.scan self query)
          = (String.length (matched self query)
             + occurrences "+" (matched self query))%nat) as Hlen.
  { induction query as [|c query IH]; [done|].
    rewrite scan_step.
    change (matched self (String c query))
      with (if PyStr.contains c (Converter.qtychars self)
            then String c (matched self query) else "").
    destruct (PyStr.contains c (Converter.qtychars self)); [|reflexivity].
    rewrite !length_app, IH.
    change (String.length (String c (matched self query)))
      with (S (String.length (matched self query))).
    change (occurrences "+" (String c (matched self query)))
      with ((if Ascii.eqb "+" c then 1 else 0)
            + occurrences "+" (matched self query))%nat.
    rewrite (Ascii.eqb_sym "+" c).
    destruct (Ascii.eqb c "+"); repeat case_match; simpl length; lia. }
  split; [exact Hlen|].
  intros x tail Hq. apply parse_quantity_ok in Hq as (_ & _ & ->).
  by rewrite Hlen.
Qed.

(** X16, witness: in ["+5km mi"] the tail starts at ["m"], and the
    query is read as five meters. *)
Lemma plus_shifts_tail_witness :
  Converter.parse_quantity Converter.default "+5km mi"
    = inr (Some 5%float, "m mi") /\
  "m mi" = PyStr.strip (PyStr.drop (2 + 1) "+5km mi") /\
  fst (Converter.parse Example.registry Converter.default "+5km mi"
                       Example.empty_world)
    = inr {| Input.number := 5%float;
             Input.dimensionality := "[length]";
             Input.from_unit := "meter";
             Input.to_unit := Some "mile";
             Input.context := None |}.
Proof.
  split; [reflexivity|]. split; [|reflexivity].
  exact (proj2 (plus_shifts_tail Converter.default "+5km mi")
           5%float "m mi" eq_refl).
Defined.

(** What a successful [parse_units] has asked the registry: the first
    token of the tail, and the second when there is one. *)
Lemma parse_units_ok (R : Registry) (tail : string) (qty m : float)
  (fq : quantity_info) (tq : option quantity_info) :
  Converter.parse_units R tail qty = inr ((m, fq), tq) ->
  m = qty /\
  exists t ts,
    PyStr.split tail = t :: ts /\ (length ts <= 1)%nat /\
    resolve R t = Some fq /\
    match ts with
    | [] => tq = None
    | t' :: _ => exists q, resolve R t' = Some q /\ tq = Some q
    end.
Proof.
  unfold Converter.parse_units.
  assert (Forall (fun t => t <> "" /\ PyStr.strip t = t)
                 (PyStr.split tail)) as Hall.
  { eapply Forall_impl; [exact (split_go_clean tail [] eq_refl)|].
    intros t [Ht Hc]. split; [done | by apply strip_clean]. }
  assert (map PyStr.strip (PyStr.split tail) = PyStr.split tail) as ->.
  { induction Hall as [|t l [_ Ht] _ IH]; [done|]. simpl.
    by rewrite Ht, IH. }
  destruct (PyStr.split tail) as [|t ts]; [done|].
  destruct (Nat.ltb_spec 2 (length (t :: ts))) as [|Hlen]; [done|].
  destruct (resolve R t) as [fq0|] eqn:Ht; [|done].
  destruct ts as [|t' ts].
  - intros [= <- <- <-]. split; [done|].
    exists t, []. repeat split; [simpl; lia | done].
  - apply Forall_cons in Hall as [_ Hall].
    apply Forall_cons in Hall as [[Hne _] _].
    destruct (String.eqb_spec t' ""); [done|].
    destruct (resolve R t') as [tq0|] eqn:Ht'; [|done].
    intros [= <- <- <-]. split; [done|].
    exists t, (t' :: ts). repeat split; [simpl in *; lia | done | eauto].
Qed.

(** X17: an [Input] that [parse] returns is read off the query: its
    number is what [float] makes of the text scanned after the context,
    its [from_unit] and dimensionality are what the registry gives for
    the first token of the unit tail, its [to_unit] is what the registry
    gives for the second token and is absent when there is none, and its
    context is the leading run of lowercase letters, if any. *)
Theorem parse_gives_resolved_units (R : Registry) (self : Converter.t)
  (query : string) (w : world) (i : Input.t) :
  fst (Converter.parse R self query w) = inr i ->
  PyFloat.of_string
    (PyStr.join (Converter.scan self (after_context query)))
    = Some (Input.number i) /\
  Input.context i =
    (if String.eqb (Converter.leading_letters query) "" then None
     else Some (Converter.leading_letters query)) /\
  exists t ts fq,
    PyStr.split (unit_tail self query) = t :: ts /\
    (length ts <= 1)%nat /\
    resolve R t = Some fq /\
    Input.from_unit i = q_units fq /\
    Input.dimensionality i = q_dimensionality fq /\
    match ts with
    | [] => Input.to_unit i = None
    | t' :: _ =>
        exists tq, resolve R t' = Some tq /\
                   Input.to_unit i = Some (q_units tq)
    end.
Proof.
  unfold Converter.parse.
  destruct (Converter.parse_context R query w) as [[e0|[ctx rest]] w1]
    eqn:Hc; [done|]. simpl.
  assert (ctx = (if String.eqb (Converter.leading_letters query) ""
                 then None else Some (Converter.leading_letters query))
          /\ rest = after_context query) as [Hctx Hrest].
  { revert Hc. unfold Converter.parse_context, after_context.
    destruct (String.eqb _ ""); [by intros [= <- <- _]|].
    destruct (known_context R _); [|done]. by intros [= <- <- _]. }
  destruct (Converter.parse_quantity self rest) as [e'|[[x|] tail]] eqn:Hq;
    [done| |by destruct ctx].
  apply parse_quantity_ok in Hq as (_ & Hx & Htail).
  destruct (String.length tail =? 0)%nat; [done|].
  destruct (Converter.parse_units R tail x) as [e'|[[m fq] tq]] eqn:Hu;
    [done|].
  apply parse_units_ok in Hu as (-> & t & ts & Hsplit & Hlen & Ht & Htq).
  intros [= <-]. simpl. subst rest.
  split; [exact Hx|]. split; [exact Hctx|].
  exists t, ts, fq. unfold unit_tail. rewrite <- Htail.
  repeat split; try done.
  destruct ts as [|t' ts]; [by subst tq|].
  destruct Htq as (q & Hq & ->). eauto.
Qed.

(** X17, witness: ["sp 2 km mi"], with a context. *)
Lemma parse_gives_resolved_units_witness :
  PyFloat.of_string "2" = Some 2%float /\
  PyStr.split (unit_tail Converter.default "sp 2 km mi") = ["km"; "mi"] /\
  exists t ts fq,
    PyStr.split (unit_tail Converter.default "sp 2 km mi") = t :: ts /\
    (length ts <= 1)%nat /\
    Example.lookup_unit t = Some fq /\
    "kilometer" = q_units fq /\ "[length]" = q_dimensionality fq /\
    match ts with
    | [] => Some "mile" = None
    | t' :: _ =>
        exists tq, Example.lookup_unit t' = Some tq /\
                   Some "mile" = Some (q_units tq)
    end.
Proof.
  split; [reflexivity|]. split; [reflexivity|].
  exact (proj2 (proj2
    (parse_gives_resolved_units Example.registry
       Converter.default "sp 2 km mi" Example.empty_world
       {| Input.number := 2%float;
          Input.dimensionality := "[length]";
          Input.from_unit := "kilometer";
          Input.to_unit := Some "mile";
          Input.context := Some "sp" |} eq_refl))).
Defined.
